(** * Felt authorization manager: token store and authorization lifecycle

    A shallow embedding of [felt/gui/authorization_manager.py].  The manager
    object, the shared API client, the credential backend and the host's
    clock are one explicit state record; every method is a state
    transformer that may raise (the [assert] of
    [start_authorization_workflow], a profile body that does not parse, a
    callback's own exception); signals, dialogs and collaborator calls are
    recorded in an event trace. *)

From Stdlib Require Import ZArith String Ascii List Bool Lia DecimalString.
From stdpp Require Import base option gmap strings list.

Local Open Scope string_scope.
Local Open Scope list_scope.
Local Open Scope Z_scope.

(** ** QDate

    The part of Qt's [QDate] the manager uses: a date is its Julian day
    number, the null (invalid) date carries the smallest 64-bit integer, and
    the comparison operators compare Julian day numbers.  The calendar
    conversions are the proleptic Gregorian ones with floored division;
    ['yyyy-MM-dd'] is four, two and two decimal digits. *)
Module QDate.

Definition t := Z.

Definition nullJd : Z := - 2 ^ 63.
Definition minJd : Z := -784350574879.
Definition maxJd : Z := 784354017364.

Definition invalid : t := nullJd.

Definition isValid (d : t) : bool := (minJd <=? d) && (d <=? maxJd).

Definition fixedDate (j : Z) : t :=
  if (minJd <=? j) && (j <=? maxJd) then j else invalid.

Definition addDays (d : t) (ndays : Z) : t :=
  if isValid d then fixedDate (d + ndays) else invalid.

(** [d1 <= d2] on QDate. *)
Definition le (d1 d2 : t) : bool := d1 <=? d2.

Definition getDateFromJulianDay (julianDay : Z) : Z * Z * Z :=
  let a := julianDay + 32044 in
  let b := (4 * a + 3) / 146097 in
  let c := a - (146097 * b) / 4 in
  let d := (4 * c + 3) / 1461 in
  let e := c - (1461 * d) / 4 in
  let m := (5 * e + 2) / 153 in
  let day := e - (153 * m + 2) / 5 + 1 in
  let month := m + 3 - 12 * (m / 10) in
  let year := 100 * b + d - 4800 + m / 10 in
  (if year <=? 0 then year - 1 else year, month, day).

Definition julianDayFromDate (year month day : Z) : Z :=
  let year := if year <? 0 then year + 1 else year in
  let a := (14 - month) / 12 in
  let y := year + 4800 - a in
  let m := month + 12 * a - 3 in
  day + (153 * m + 2) / 5 + 365 * y + y / 4 - y / 100 + y / 400 - 32045.

Definition isLeapYear (y : Z) : bool :=
  let y := if y <? 1 then y + 1 else y in
  ((y mod 4 =? 0) && negb (y mod 100 =? 0)) || (y mod 400 =? 0).

Definition daysInMonth (month year : Z) : Z :=
  if month =? 2 then (if isLeapYear year then 29 else 28)
  else if (month =? 4) || (month =? 6) || (month =? 9) || (month =? 11)
       then 30 else 31.

Definition isValidDate (year month day : Z) : bool :=
  negb (year =? 0) && (1 <=? month) && (month <=? 12)
  && (1 <=? day) && (day <=? daysInMonth month year).

Definition fromDate (year month day : Z) : t :=
  if isValidDate year month day
  then fixedDate (julianDayFromDate year month day)
  else invalid.

(** Decimal digits. *)
Definition digit (n : Z) : ascii := ascii_of_nat (48 + Z.to_nat n).

Definition pad2 (n : Z) : string :=
  String (digit (n / 10)) (String (digit (n mod 10)) "").

Definition pad4 (n : Z) : string :=
  if n <? 10000
  then String (digit (n / 1000)) (String (digit (n / 100 mod 10)) (pad2 (n mod 100)))
  else NilEmpty.string_of_uint (N.to_uint (Z.to_N n)).

Definition yyyy (year : Z) : string :=
  if year <? 0 then ("-" ++ pad4 (- year))%string else pad4 year.

(** [d.toString('yyyy-MM-dd')]; the null date prints as the empty
    string. *)
Definition toString (d : t) : string :=
  if isValid d then
    let '(y, m, dd) := getDateFromJulianDay d in
    (yyyy y ++ "-" ++ pad2 m ++ "-" ++ pad2 dd)%string
  else "".

Definition digit_of (c : ascii) : option Z :=
  let n := Z.of_nat (nat_of_ascii c) in
  if (48 <=? n) && (n <=? 57) then Some (n - 48) else None.

Definition dash (c : ascii) : bool := Ascii.eqb c "-"%char.

(** [QDate.fromString(s, 'yyyy-MM-dd')]: the whole string must match the
    format and name a valid date, otherwise the null date. *)
Definition fromString (s : string) : t :=
  match s with
  | String y1 (String y2 (String y3 (String y4 (String s1
      (String m1 (String m2 (String s2 (String d1 (String d2 ""))))))))) =>
      match digit_of y1, digit_of y2, digit_of y3, digit_of y4,
            digit_of m1, digit_of m2, digit_of d1, digit_of d2 with
      | Some a, Some b, Some c, Some d, Some e, Some f, Some g, Some h =>
          if dash s1 && dash s2
          then fromDate (1000 * a + 100 * b + 10 * c + d) (10 * e + f) (10 * g + h)
          else invalid
      | _, _, _, _, _, _, _, _ => invalid
      end
  | _ => invalid
  end.

End QDate.

(** ** Token store *)

Inductive Platform := Darwin | OtherPlatform.

Definition AUTH_CONFIG_ID : string := "felt_auth_id".
Definition AUTH_CONFIG_EXPIRY : string := "felt_auth_expiry".

(** The two credential backends: the plugin section of [QgsSettings] (plain
    text, used on MacOS) and the settings of the QGIS authentication
    manager.  A write is taken to succeed, as the source takes it (the
    result of [storeAuthSetting] is not looked at). *)
Record Backend := mkBackend {
  qgs_settings : gmap string string;
  auth_settings : gmap string string
}.

Definition empty_backend : Backend := mkBackend ∅ ∅.

(** Python's truth value of an optional string, and [x or None]. *)
Definition truthy (x : option string) : bool :=
  match x with
  | Some s => negb (String.eqb s "")
  | None => false
  end.

Definition or_None (x : option string) : option string :=
  if truthy x then x else None.

(** [QgsSettings().value(key, None, str, QgsSettings.Plugins)] *)
Definition value (key : string) (b : Backend) : option string :=
  qgs_settings b !! key.

(** [authManager().authSetting(key, defaultValue=dflt, decrypt=True)] *)
Definition authSetting (key : string) (dflt : string) (b : Backend) : option string :=
  Some (default dflt (auth_settings b !! key)).

(** [int(expiry / 60 / 60 / 24)]: the quotient truncated towards zero (the
    float divisions are exact enough for every 32-bit [expiry]). *)
Definition expiry_days (expiry : Z) : Z := Z.quot expiry (60 * 60 * 24).

Definition remove_api_token (platform : Platform) (b : Backend) : Backend :=
  match platform with
  | Darwin => mkBackend (delete "felt/token" (qgs_settings b)) (auth_settings b)
  | OtherPlatform => mkBackend (qgs_settings b) (delete AUTH_CONFIG_ID (auth_settings b))
  end.

Definition store_api_token (platform : Platform) (currentDate : QDate.t)
    (token : string) (expiry : Z) (b : Backend) : bool * Backend :=
  let expiry_day := QDate.addDays currentDate (expiry_days expiry) in
  match platform with
  | Darwin =>
      (true,
       mkBackend
         (<["felt/token_expiry" := QDate.toString expiry_day]>
            (<["felt/token" := token]> (qgs_settings b)))
         (auth_settings b))
  | OtherPlatform =>
      (true,
       mkBackend (qgs_settings b)
         (<[AUTH_CONFIG_EXPIRY := QDate.toString expiry_day]>
            (<[AUTH_CONFIG_ID := token]> (auth_settings b))))
  end.

Definition retrieve_api_token (platform : Platform) (currentDate : QDate.t)
    (b : Backend) : option string :=
  let '(api_token, token_expiry) :=
    match platform with
    | Darwin =>
        let api_token := value "felt/token" b in
        let token_expiry := value "felt/token_expiry" b in
        (if negb (truthy api_token) then None else api_token, token_expiry)
    | OtherPlatform =>
        (or_None (authSetting AUTH_CONFIG_ID "" b),
         or_None (authSetting AUTH_CONFIG_EXPIRY "" b))
    end in
  if truthy token_expiry then
    let token_expiry_date := QDate.fromString (default "" token_expiry) in
    if QDate.le token_expiry_date currentDate then None else api_token
  else None.

(** The persisted credential, as the backend of the platform holds it. *)
Definition token_record (platform : Platform) (b : Backend) : option string :=
  match platform with
  | Darwin => qgs_settings b !! "felt/token"
  | OtherPlatform => auth_settings b !! AUTH_CONFIG_ID
  end.

Definition expiry_record (platform : Platform) (b : Backend) : option string :=
  match platform with
  | Darwin => qgs_settings b !! "felt/token_expiry"
  | OtherPlatform => auth_settings b !! AUTH_CONFIG_EXPIRY
  end.

(** ** The manager's state *)

Inductive AuthState := NotAuthorized | Authorizing | Authorized.

#[global] Instance AuthState_eq_dec : EqDecision AuthState.
Proof. solve_decision. Defined.

(** A queued continuation.  A callback is opaque to the manager; what it
    can do that matters here is run (recorded under its identifier), call
    back into [authorization_callback] with another continuation, or raise
    an exception of its own. *)
Inductive Callback :=
| Plain (id : nat)
| Requesting (id : nat) (inner : Callback)
| Failing (id : nat).

(** Objects of the host (workflow, timer, message bar items, network
    replies) are handles compared by identity. *)
Definition Handle := nat.

(** A user profile, as [User.from_json] builds it from the JSON text. *)
Record User := mkUser { user_json : string }.

Record LoginAction := mkLoginAction { text : string; enabled : bool }.

(** What a finished profile reply shows: the HTTP status code attribute,
    whether [error()] differs from [NoError], and the body. *)
Record ReplyData := mkReplyData {
  http_status : Z;
  has_error : bool;
  body : string
}.

Inductive Event :=
| Emit_authorized
| Emit_authorization_failed
| Emit_status_changed (st : AuthState)
| Dialog_exec (accepted : bool)
| Workflow_start (w : Handle)
| Workflow_force_stop (w : Handle)
| Workflow_close (w : Handle)
| Timer_start (t : Handle)
| Timer_dispose (t : Handle)
| Api_user (r : Handle)
| Reply_deleteLater (r : Handle)
| MessageBar_pushItem (m : Handle)
| MessageBar_popWidget (m : Handle)
| MessageBar_pushSuccess
| Callback_run (id : nat).

Record State := mkState {
  (* the manager object *)
  status : AuthState;
  _workflow : option Handle;
  oauth_close_timer : option Handle;
  _authorizing_message : option Handle;
  _authorization_failed_message : option Handle;
  queued_callbacks : list Callback;
  user : option User;
  _user_reply : option Handle;
  login_action : LoginAction;
  (* collaborators *)
  api_client_token : option string;
  backend : Backend;
  events : list Event;
  (* host *)
  currentDate : QDate.t;
  deleted : list Handle;
  next_handle : Handle;
  dialogs_shown : nat
}.

Definition set_status (v : AuthState) (s : State) : State :=
  mkState v (_workflow s) (oauth_close_timer s) (_authorizing_message s)
    (_authorization_failed_message s) (queued_callbacks s) (user s)
    (_user_reply s) (login_action s) (api_client_token s) (backend s)
    (events s) (currentDate s) (deleted s) (next_handle s) (dialogs_shown s).

Definition set_workflow (v : option Handle) (s : State) : State :=
  mkState (status s) v (oauth_close_timer s) (_authorizing_message s)
    (_authorization_failed_message s) (queued_callbacks s) (user s)
    (_user_reply s) (login_action s) (api_client_token s) (backend s)
    (events s) (currentDate s) (deleted s) (next_handle s) (dialogs_shown s).

Definition set_oauth_close_timer (v : option Handle) (s : State) : State :=
  mkState (status s) (_workflow s) v (_authorizing_message s)
    (_authorization_failed_message s) (queued_callbacks s) (user s)
    (_user_reply s) (login_action s) (api_client_token s) (backend s)
    (events s) (currentDate s) (deleted s) (next_handle s) (dialogs_shown s).

Definition set_authorizing_message (v : option Handle) (s : State) : State :=
  mkState (status s) (_workflow s) (oauth_close_timer s) v
    (_authorization_failed_message s) (queued_callbacks s) (user s)
    (_user_reply s) (login_action s) (api_client_token s) (backend s)
    (events s) (currentDate s) (deleted s) (next_handle s) (dialogs_shown s).

Definition set_authorization_failed_message (v : option Handle) (s : State) : State :=
  mkState (status s) (_workflow s) (oauth_close_timer s) (_authorizing_message s)
    v (queued_callbacks s) (user s)
    (_user_reply s) (login_action s) (api_client_token s) (backend s)
    (events s) (currentDate s) (deleted s) (next_handle s) (dialogs_shown s).

Definition set_queued_callbacks (v : list Callback) (s : State) : State :=
  mkState (status s) (_workflow s) (oauth_close_timer s) (_authorizing_message s)
    (_authorization_failed_message s) v (user s)
    (_user_reply s) (login_action s) (api_client_token s) (backend s)
    (events s) (currentDate s) (deleted s) (next_handle s) (dialogs_shown s).

Definition set_user (v : option User) (s : State) : State :=
  mkState (status s) (_workflow s) (oauth_close_timer s) (_authorizing_message s)
    (_authorization_failed_message s) (queued_callbacks s) v
    (_user_reply s) (login_action s) (api_client_token s) (backend s)
    (events s) (currentDate s) (deleted s) (next_handle s) (dialogs_shown s).

Definition set_user_reply (v : option Handle) (s : State) : State :=
  mkState (status s) (_workflow s) (oauth_close_timer s) (_authorizing_message s)
    (_authorization_failed_message s) (queued_callbacks s) (user s)
    v (login_action s) (api_client_token s) (backend s)
    (events s) (currentDate s) (deleted s) (next_handle s) (dialogs_shown s).

Definition set_login_action (v : LoginAction) (s : State) : State :=
  mkState (status s) (_workflow s) (oauth_close_timer s) (_authorizing_message s)
    (_authorization_failed_message s) (queued_callbacks s) (user s)
    (_user_reply s) v (api_client_token s) (backend s)
    (events s) (currentDate s) (deleted s) (next_handle s) (dialogs_shown s).

(** [API_CLIENT.set_token] *)
Definition set_token (v : option string) (s : State) : State :=
  mkState (status s) (_workflow s) (oauth_close_timer s) (_authorizing_message s)
    (_authorization_failed_message s) (queued_callbacks s) (user s)
    (_user_reply s) (login_action s) v (backend s)
    (events s) (currentDate s) (deleted s) (next_handle s) (dialogs_shown s).

Definition set_backend (v : Backend) (s : State) : State :=
  mkState (status s) (_workflow s) (oauth_close_timer s) (_authorizing_message s)
    (_authorization_failed_message s) (queued_callbacks s) (user s)
    (_user_reply s) (login_action s) (api_client_token s) v
    (events s) (currentDate s) (deleted s) (next_handle s) (dialogs_shown s).

(** Append an event to the trace. *)
Definition log (e : Event) (s : State) : State :=
  mkState (status s) (_workflow s) (oauth_close_timer s) (_authorizing_message s)
    (_authorization_failed_message s) (queued_callbacks s) (user s)
    (_user_reply s) (login_action s) (api_client_token s) (backend s)
    (events s ++ [e]) (currentDate s) (deleted s) (next_handle s) (dialogs_shown s).

(** Take a fresh handle for a newly constructed host object. *)
Definition fresh (s : State) : Handle * State :=
  (next_handle s,
   mkState (status s) (_workflow s) (oauth_close_timer s) (_authorizing_message s)
     (_authorization_failed_message s) (queued_callbacks s) (user s)
     (_user_reply s) (login_action s) (api_client_token s) (backend s)
     (events s) (currentDate s) (deleted s) (S (next_handle s)) (dialogs_shown s)).

Definition count_dialog (s : State) : State :=
  mkState (status s) (_workflow s) (oauth_close_timer s) (_authorizing_message s)
    (_authorization_failed_message s) (queued_callbacks s) (user s)
    (_user_reply s) (login_action s) (api_client_token s) (backend s)
    (events s) (currentDate s) (deleted s) (next_handle s) (S (dialogs_shown s)).

(** The host's side: the calendar moves on, an object is disposed of. *)
Definition set_currentDate (v : QDate.t) (s : State) : State :=
  mkState (status s) (_workflow s) (oauth_close_timer s) (_authorizing_message s)
    (_authorization_failed_message s) (queued_callbacks s) (user s)
    (_user_reply s) (login_action s) (api_client_token s) (backend s)
    (events s) v (deleted s) (next_handle s) (dialogs_shown s).

Definition dispose (h : Handle) (s : State) : State :=
  mkState (status s) (_workflow s) (oauth_close_timer s) (_authorizing_message s)
    (_authorization_failed_message s) (queued_callbacks s) (user s)
    (_user_reply s) (login_action s) (api_client_token s) (backend s)
    (events s) (currentDate s) (h :: deleted s) (next_handle s) (dialogs_shown s).

(** [sip.isdeleted] *)
Definition isdeleted (s : State) (h : Handle) : bool :=
  bool_decide (h ∈ deleted s).

(** [x and not sip.isdeleted(x)] *)
Definition alive (s : State) (x : option Handle) : option Handle :=
  match x with
  | Some h => if isdeleted s h then None else Some h
  | None => None
  end.

(** ** Methods that may raise *)

(** The exceptions that leave a method: the [assert] of
    [start_authorization_workflow], whatever [decode()] or [User.from_json]
    raises on a body that is not a user profile, and whatever a callback
    raises. *)
Inductive Exn := AssertionError | ProfileError | CallbackError.

Inductive Outcome (A : Type) :=
| Returned (a : A)
| Raised (e : Exn).
Arguments Returned {A} a.
Arguments Raised {A} e.

Definition M (A : Type) : Type := State -> Outcome A * State.

Definition ret {A} (a : A) : M A := fun s => (Returned a, s).

Definition bind {A B} (m : M A) (k : A -> M B) : M B :=
  fun s =>
    match m s with
    | (Returned a, s') => k a s'
    | (Raised e, s') => (Raised e, s')
    end.

Definition raise {A} (e : Exn) : M A := fun s => (Raised e, s).

(** A method that cannot raise. *)
Definition run (f : State -> State) : M unit := fun s => (Returned tt, f s).

Definition gets {A} (f : State -> A) : M A := fun s => (Returned (f s), s).

Notation "x <- m ;; k" := (bind m (fun x => k))
  (at level 100, m at next level, right associativity).
Notation "m ;; k" := (bind m (fun _ => k))
  (at level 100, right associativity).

(** [for x in xs: f(x)], stopping at the first exception. *)
Fixpoint for_each {A} (f : A -> M unit) (xs : list A) : M unit :=
  match xs with
  | [] => ret tt
  | x :: xs' => f x ;; for_each f xs'
  end.

Definition state_of {A} (r : Outcome A * State) : State := snd r.
Definition outcome_of {A} (r : Outcome A * State) : Outcome A := fst r.

(** ** The methods of [AuthorizationManager] *)

Section Manager.

(** [platform.system()], and what the n-th [AuthorizeDialog().exec_()] of
    the run answers. *)
Variable platform : Platform.
Variable exec_ : nat -> bool.

(** [User.from_json(body.decode())] of the core package, which is not part
    of this file: the profile the body holds, or none when decoding or
    parsing raises. *)
Variable from_json : string -> option User.

(** [__init__] on a given host: backend contents and today's date. *)
Definition init (b : Backend) (today : QDate.t) : State :=
  mkState NotAuthorized None None None None [] None None
    (mkLoginAction "Sign In…" true) None b [] today [] 0%nat 0%nat.

Definition _set_status (st : AuthState) (s : State) : State :=
  if decide (status s = st) then s
  else
    let s := set_status st s in
    let s := log (Emit_status_changed (status s)) s in
    match status s with
    | NotAuthorized =>
        set_user None (set_login_action (mkLoginAction "Sign In…" true) s)
    | Authorizing =>
        set_user None (set_login_action (mkLoginAction "Authorizing…" false) s)
    | Authorized =>
        set_login_action (mkLoginAction "Log Out" true) s
    end.

Definition is_authorized (s : State) : bool :=
  bool_decide (status s = Authorized).

Definition _cleanup_messages (s : State) : State :=
  let s :=
    match alive s (_authorizing_message s) with
    | Some m => set_authorizing_message None (log (MessageBar_popWidget m) s)
    | None => s
    end in
  match alive s (_authorization_failed_message s) with
  | Some m => set_authorization_failed_message None (log (MessageBar_popWidget m) s)
  | None => s
  end.

Definition _clean_workflow (s : State) : State :=
  match alive s (_workflow s) with
  | Some _ =>
      let '(t, s) := fresh s in
      log (Timer_start t) (set_oauth_close_timer (Some t) s)
  | None => s
  end.

Definition _close_auth_server (force_close : bool) (s : State) : State :=
  let s :=
    match alive s (oauth_close_timer s) with
    | Some t => log (Timer_dispose t) s
    | None => s
    end in
  let s := set_oauth_close_timer None s in
  let s :=
    match alive s (_workflow s) with
    | Some w =>
        let s := if force_close then log (Workflow_force_stop w) s else s in
        log (Workflow_close w) s
    | None => s
    end in
  set_workflow None s.

Definition cleanup (s : State) : State :=
  let s :=
    match alive s (_user_reply s) with
    | Some r => log (Reply_deleteLater r) s
    | None => s
    end in
  let s := set_user_reply None s in
  _close_auth_server true s.

Definition deauthorize (s : State) : State :=
  let s := _set_status NotAuthorized s in
  let s := set_token None s in
  set_backend (remove_api_token platform (backend s)) s.

(** [self._user_reply = API_CLIENT.user()] and the connection of its
    [finished] signal. *)
Definition fetch_user (s : State) : State :=
  let '(r, s) := fresh s in
  set_user_reply (Some r) (log (Api_user r) s).

Definition start_authorization_workflow : M bool :=
  fun s =>
    match _workflow s with
    | Some _ => raise AssertionError s
    | None =>
        let s := _cleanup_messages s in
        let '(w, s) := fresh s in
        let s := set_workflow (Some w) s in
        let s := _set_status Authorizing s in
        let '(m, s) := fresh s in
        let s := set_authorizing_message (Some m) s in
        let s := log (MessageBar_pushItem m) s in
        let s := log (Workflow_start w) s in
        ret false s
    end.

Definition show_authorization_dialog : M unit :=
  fun s =>
    let accepted := exec_ (dialogs_shown s) in
    let s := log (Dialog_exec accepted) (count_dialog s) in
    if accepted
    then (start_authorization_workflow ;; ret tt) s
    else ret tt (set_queued_callbacks [] s).

Definition attempt_authorize : M unit :=
  fun s =>
    match or_None (retrieve_api_token platform (currentDate s) (backend s)) with
    | Some previous_token =>
        let s := _cleanup_messages s in
        let s := _set_status Authorized s in
        let s := set_token (Some previous_token) s in
        let s := log Emit_authorized s in
        ret tt (fetch_user s)
    | None => show_authorization_dialog s
    end.

Definition _login_action_triggered : M unit :=
  fun s =>
    match status s with
    | NotAuthorized => attempt_authorize s
    | Authorized => run deauthorize s
    | Authorizing => ret tt s
    end.

(** [authorization_callback], over the way a callback is run. *)
Definition authorization_callback_with (call : Callback -> M unit)
    (callback : Callback) : M bool :=
  fun s =>
    if decide (status s = Authorized)
    then (call callback ;; ret true) s
    else
      (run (fun s => set_queued_callbacks (queued_callbacks s ++ [callback]) s) ;;
       attempt_authorize ;;
       ret false) s.

(** [callback()] *)
Fixpoint call (callback : Callback) : M unit :=
  match callback with
  | Plain id => run (log (Callback_run id))
  | Requesting id inner =>
      run (log (Callback_run id)) ;;
      authorization_callback_with call inner ;;
      ret tt
  | Failing id =>
      run (log (Callback_run id)) ;;
      raise CallbackError
  end.

Definition authorization_callback : Callback -> M bool :=
  authorization_callback_with call.

Definition _authorization_error_occurred (error : string) (s : State) : State :=
  let s := set_queued_callbacks [] s in
  let s := _cleanup_messages s in
  let s := _clean_workflow s in
  let s := _set_status NotAuthorized s in
  let '(m, s) := fresh s in
  let s := set_authorization_failed_message (Some m) s in
  let s := log (MessageBar_pushItem m) s in
  let s := set_queued_callbacks [] s in
  log Emit_authorization_failed s.

Definition _authorization_success (token : string) (expiry : Z) (s : State) : State :=
  let s := _cleanup_messages s in
  let s := _set_status Authorized s in
  let s := log MessageBar_pushSuccess s in
  let s := set_token (Some token) s in
  let s := set_backend
             (snd (store_api_token platform (currentDate s) token expiry (backend s))) s in
  let s := _clean_workflow s in
  let s := log Emit_authorized s in
  fetch_user s.

Definition _set_user_details (reply : Handle) (data : ReplyData) : M unit :=
  fun s =>
    if negb (bool_decide (Some reply = _user_reply s)) then ret tt s
    else if isdeleted s reply then ret tt (set_user_reply None s)
    else if http_status data =? 401 then
      (run (set_user_reply None) ;; run deauthorize ;; attempt_authorize) s
    else if has_error data then ret tt (set_user_reply None s)
    else
      match from_json (body data) with
      | None => raise ProfileError s
      | Some profile =>
          let s := set_user (Some profile) s in
          let callbacks := queued_callbacks s in
          let s := set_queued_callbacks [] s in
          for_each call callbacks s
      end.

End Manager.

(** * Properties *)

(** ** Token store *)

Lemma truthy_Some (x : option string) :
  truthy x = true <-> exists s, x = Some s /\ s <> "".
Proof.
  destruct x as [s|]; simpl.
  - rewrite negb_true_iff, String.eqb_neq. split.
    + intros H. exists s. split; [reflexivity | exact H].
    + intros (s' & Hs & Hne). congruence.
  - split; [discriminate | intros (s' & Hs & _); discriminate].
Qed.

Lemma truthy_nonempty (s : string) : s <> "" -> truthy (Some s) = true.
Proof. intros H. apply truthy_Some. eauto. Qed.

Lemma or_None_Some (x : option string) (s : string) :
  or_None x = Some s <-> x = Some s /\ s <> "".
Proof.
  unfold or_None. destruct (truthy x) eqn:E.
  - apply truthy_Some in E as (s' & -> & Hne). split.
    + intros [= <-]. auto.
    + intros [H _]. exact H.
  - split; [discriminate |]. intros [-> Hne].
    rewrite truthy_nonempty in E by exact Hne. discriminate.
Qed.

(** [retrieve_api_token] in terms of the two persisted records: the token
    record is returned when it is a non-empty string and the expiry record
    is a non-empty string that parses to a day after [today]. *)
Lemma retrieve_api_token_unfold platform today b :
  retrieve_api_token platform today b =
  if truthy (expiry_record platform b) then
    if QDate.le (QDate.fromString (default "" (expiry_record platform b))) today
    then None else or_None (token_record platform b)
  else None.
Proof.
  unfold retrieve_api_token, or_None, value, authSetting.
  destruct platform; simpl.
  - destruct (truthy (qgs_settings b !! "felt/token")); reflexivity.
  - destruct (auth_settings b !! AUTH_CONFIG_EXPIRY) as [e|]; simpl.
    + destruct (String.eqb e "") eqn:Ee; simpl; [reflexivity |].
      rewrite Ee. simpl.
      destruct (QDate.le (QDate.fromString e) today); [reflexivity |].
      destruct (auth_settings b !! AUTH_CONFIG_ID) as [t|]; simpl; [| reflexivity].
      destruct (String.eqb t "") eqn:Et; simpl; reflexivity.
    + reflexivity.
Qed.

Lemma retrieve_api_token_nonempty platform today b tok :
  retrieve_api_token platform today b = Some tok -> tok <> "".
Proof.
  rewrite retrieve_api_token_unfold.
  destruct (truthy _); [| discriminate].
  destruct (QDate.le _ _); [discriminate |].
  intros H. apply or_None_Some in H. tauto.
Qed.

(** C5.  [retrieve_api_token] returns a token exactly when the persisted
    token is that (non-empty) string and the persisted expiry is present and
    parses to a date strictly later than the current date; with the expiry
    absent, or equal to today, or in the past, it returns none. *)
Theorem retrieve_api_token_iff_unexpired platform today b :
  (forall tok,
      retrieve_api_token platform today b = Some tok <->
      token_record platform b = Some tok /\ tok <> "" /\
      exists e, expiry_record platform b = Some e /\ e <> "" /\
                today < QDate.fromString e)
  /\ (expiry_record platform b = None ->
      retrieve_api_token platform today b = None)
  /\ (forall e, expiry_record platform b = Some e ->
                QDate.fromString e <= today ->
                retrieve_api_token platform today b = None).
Proof.
  rewrite retrieve_api_token_unfold. unfold QDate.le. repeat split.
  - destruct (truthy (expiry_record platform b)) eqn:E; [| discriminate].
    apply truthy_Some in E as (e & He & Hne). rewrite He in H. simpl in H.
    destruct (Z.leb_spec (QDate.fromString e) today); [discriminate |].
    apply or_None_Some in H. tauto.
  - destruct (truthy (expiry_record platform b)) eqn:E; [| discriminate].
    apply truthy_Some in E as (e & He & Hne). rewrite He in H. simpl in H.
    destruct (Z.leb_spec (QDate.fromString e) today); [discriminate |].
    apply or_None_Some in H. tauto.
  - destruct (truthy (expiry_record platform b)) eqn:E; [| discriminate].
    apply truthy_Some in E as (e & He & Hne). rewrite He in H. simpl in H.
    destruct (Z.leb_spec (QDate.fromString e) today); [discriminate |].
    exists e. auto.
  - intros (Htok & Hne & e & He & Hene & Hlt).
    rewrite He. rewrite truthy_nonempty by exact Hene. simpl.
    destruct (Z.leb_spec (QDate.fromString e) today); [lia |].
    apply or_None_Some. auto.
  - intros ->. reflexivity.
  - intros e -> Hle. simpl.
    destruct (negb (String.eqb e "")); [| reflexivity].
    destruct (Z.leb_spec (QDate.fromString e) today); [reflexivity | lia].
Qed.

Lemma isValid_fixedDate (j : Z) :
  QDate.isValid (QDate.fixedDate j) = true -> QDate.fixedDate j = j.
Proof.
  unfold QDate.fixedDate.
  destruct ((QDate.minJd <=? j) && (j <=? QDate.maxJd)); [reflexivity |].
  vm_compute. discriminate.
Qed.

Lemma addDays_valid (d : QDate.t) (n : Z) :
  QDate.isValid (QDate.addDays d n) = true -> QDate.addDays d n = d + n.
Proof.
  unfold QDate.addDays. destruct (QDate.isValid d).
  - apply isValid_fixedDate.
  - vm_compute. discriminate.
Qed.

Lemma toString_nonempty (d : QDate.t) :
  QDate.isValid d = true ->
  QDate.fromString (QDate.toString d) = d ->
  QDate.toString d <> "".
Proof.
  intros Hv Hrt Hempty. rewrite Hempty in Hrt.
  rewrite <- Hrt in Hv. vm_compute in Hv. discriminate.
Qed.

Lemma expiry_days_whole_day (expiry : Z) :
  86400 <= expiry -> 1 <= expiry_days expiry.
Proof.
  intros H. unfold expiry_days. change (60 * 60 * 24) with 86400.
  apply Z.quot_le_lower_bound; lia.
Qed.

Lemma expiry_days_same_day (expiry : Z) :
  -86400 < expiry < 86400 -> expiry_days expiry = 0.
Proof.
  intros H. unfold expiry_days. change (60 * 60 * 24) with 86400.
  destruct (Z.le_gt_cases 0 expiry).
  - apply Z.quot_small. lia.
  - rewrite <- (Z.opp_involutive expiry), Z.quot_opp_l by lia.
    rewrite Z.quot_small by lia. reflexivity.
Qed.

Lemma records_after_store platform today token expiry b :
  let b' := snd (store_api_token platform today token expiry b) in
  token_record platform b' = Some token /\
  expiry_record platform b' =
    Some (QDate.toString (QDate.addDays today (expiry_days expiry))).
Proof.
  destruct platform; simpl; split.
  - rewrite lookup_insert_ne by discriminate. apply lookup_insert_eq.
  - apply lookup_insert_eq.
  - rewrite lookup_insert_ne by discriminate. apply lookup_insert_eq.
  - apply lookup_insert_eq.
Qed.

(** C1 (amended).  A non-empty token stored with an expiry of at least one
    day is returned by a [retrieve_api_token] on the same day; whatever the
    expiry, once the current date has reached the computed expiry day the
    token is no longer returned, with no [remove_api_token] in between.
    (The expiry day is taken to be a date the ['yyyy-MM-dd'] format reads
    back.) *)
Theorem store_then_retrieve platform today token expiry b :
  token <> "" ->
  QDate.isValid (QDate.addDays today (expiry_days expiry)) = true ->
  QDate.fromString (QDate.toString (QDate.addDays today (expiry_days expiry)))
    = QDate.addDays today (expiry_days expiry) ->
  let b' := snd (store_api_token platform today token expiry b) in
  fst (store_api_token platform today token expiry b) = true
  /\ (86400 <= expiry -> retrieve_api_token platform today b' = Some token)
  /\ (forall later,
         QDate.addDays today (expiry_days expiry) <= later ->
         retrieve_api_token platform later b' = None).
Proof.
  intros Htok Hvalid Hrt b'.
  pose proof (records_after_store platform today token expiry b) as [Ht He].
  fold b' in Ht, He.
  pose proof (toString_nonempty _ Hvalid Hrt) as Hne.
  split; [destruct platform; reflexivity |].
  split.
  - intros Hday. rewrite retrieve_api_token_unfold, He, Ht.
    rewrite truthy_nonempty by exact Hne. simpl. rewrite Hrt.
    rewrite (addDays_valid _ _ Hvalid). unfold QDate.le.
    pose proof (expiry_days_whole_day expiry Hday).
    destruct (Z.leb_spec (today + expiry_days expiry) today); [lia |].
    apply or_None_Some. auto.
  - intros later Hlater. rewrite retrieve_api_token_unfold, He.
    rewrite truthy_nonempty by exact Hne. simpl. rewrite Hrt.
    unfold QDate.le.
    destruct (Z.leb_spec (QDate.addDays today (expiry_days expiry)) later);
      [reflexivity | lia].
Qed.

Definition d20261104 : QDate.t := QDate.fromDate 2026 11 4.

Lemma store_then_retrieve_witness :
  retrieve_api_token OtherPlatform d20261104
    (snd (store_api_token OtherPlatform d20261104 "abc" 86400 empty_backend))
  = Some "abc".
Proof.
  apply (store_then_retrieve OtherPlatform d20261104 "abc" 86400 empty_backend).
  - discriminate.
  - vm_compute. reflexivity.
  - vm_compute. reflexivity.
  - lia.
Defined.

(** C1, as stated, fails: with an expiry of 3600 seconds the computed expiry
    day is today, and a token expiring today is not returned. *)
Lemma store_3600_then_retrieve_none :
  retrieve_api_token OtherPlatform d20261104
    (snd (store_api_token OtherPlatform d20261104 "abc" 3600 empty_backend))
  <> Some "abc"
  /\ retrieve_api_token Darwin d20261104
       (snd (store_api_token Darwin d20261104 "abc" 3600 empty_backend))
     <> Some "abc".
Proof. split; vm_compute; discriminate. Qed.

(** ** Authorization lifecycle *)

Definition is_dialog (e : Event) : bool :=
  match e with Dialog_exec _ => true | _ => false end.

Definition is_callback_run (e : Event) : bool :=
  match e with Callback_run _ => true | _ => false end.

Ltac split_all := repeat match goal with |- _ /\ _ => split end.

Ltac case_step :=
  match goal with
  | |- context [decide ?P] => destruct (decide P); simpl in *
  | |- context [isdeleted ?s ?h] => destruct (isdeleted s h) eqn:?; simpl in *
  | |- context [match ?x with Some _ => _ | None => _ end] =>
      destruct x eqn:?; simpl in *
  end.

(** What [_cleanup_messages] does: it pops message bar items, and touches
    nothing but the two message fields. *)
Lemma _cleanup_messages_effect s :
  exists pops,
    events (_cleanup_messages s) = events s ++ pops
    /\ forallb (fun e => negb (is_dialog e || is_callback_run e)) pops = true
    /\ status (_cleanup_messages s) = status s
    /\ _workflow (_cleanup_messages s) = _workflow s
    /\ oauth_close_timer (_cleanup_messages s) = oauth_close_timer s
    /\ queued_callbacks (_cleanup_messages s) = queued_callbacks s
    /\ user (_cleanup_messages s) = user s
    /\ _user_reply (_cleanup_messages s) = _user_reply s
    /\ login_action (_cleanup_messages s) = login_action s
    /\ api_client_token (_cleanup_messages s) = api_client_token s
    /\ backend (_cleanup_messages s) = backend s
    /\ currentDate (_cleanup_messages s) = currentDate s
    /\ deleted (_cleanup_messages s) = deleted s
    /\ next_handle (_cleanup_messages s) = next_handle s
    /\ dialogs_shown (_cleanup_messages s) = dialogs_shown s.
Proof.
  unfold _cleanup_messages, alive.
  destruct (_authorizing_message s) as [m|] eqn:Hm;
    [destruct (isdeleted s m) eqn:Dm |];
    (destruct (_authorization_failed_message s) as [m'|] eqn:Hm';
     [destruct (isdeleted s m') eqn:Dm' |]);
    simpl; rewrite ?Hm', ?Dm'; unfold isdeleted in *; simpl; rewrite ?Dm';
    simpl;
    first [ exists []; rewrite app_nil_r; split_all; reflexivity
          | eexists [_]; split_all; reflexivity
          | eexists [_; _]; rewrite <- app_assoc; split_all; reflexivity ].
Qed.

(** C10.  [deauthorize] sets the status to [NotAuthorized], clears the
    client's token and removes the persisted credential; the user profile
    and the login action change only with the status.  The callback queue,
    the profile request handle, the workflow, its timer and the message
    items stay as they are, no callback runs, and the only event is
    [status_changed], emitted when the status was not [NotAuthorized]
    already. *)
Theorem deauthorize_frame platform s :
  let s' := deauthorize platform s in
  status s' = NotAuthorized
  /\ api_client_token s' = None
  /\ backend s' = remove_api_token platform (backend s)
  /\ user s' = (if decide (status s = NotAuthorized) then user s else None)
  /\ login_action s' =
       (if decide (status s = NotAuthorized) then login_action s
        else mkLoginAction "Sign In…" true)
  /\ queued_callbacks s' = queued_callbacks s
  /\ _user_reply s' = _user_reply s
  /\ _workflow s' = _workflow s
  /\ oauth_close_timer s' = oauth_close_timer s
  /\ _authorizing_message s' = _authorizing_message s
  /\ _authorization_failed_message s' = _authorization_failed_message s
  /\ events s' =
       events s ++
       (if decide (status s = NotAuthorized) then []
        else [Emit_status_changed NotAuthorized]).
Proof.
  unfold deauthorize, _set_status.
  destruct (decide (status s = NotAuthorized)) as [E|E]; simpl.
  - rewrite app_nil_r. split_all; auto.
  - split_all; reflexivity.
Qed.

Lemma or_None_nonempty (s : string) : s <> "" -> or_None (Some s) = Some s.
Proof. intros H. apply or_None_Some. auto. Qed.

(** C8.  With a valid stored credential, [attempt_authorize] returns with
    the status [Authorized], the client's token set to the stored token, the
    [authorized] signal emitted and a profile request issued and recorded
    as the current one; no dialog is shown. *)
Theorem attempt_authorize_stored_token platform exec_ s tok :
  retrieve_api_token platform (currentDate s) (backend s) = Some tok ->
  let r := attempt_authorize platform exec_ s in
  outcome_of r = Returned tt
  /\ status (state_of r) = Authorized
  /\ api_client_token (state_of r) = Some tok
  /\ _user_reply (state_of r) = Some (next_handle s)
  /\ dialogs_shown (state_of r) = dialogs_shown s
  /\ exists pre,
       events (state_of r) =
         events s ++ pre ++ [Emit_authorized; Api_user (next_handle s)]
       /\ forallb (fun e => negb (is_dialog e)) pre = true.
Proof.
  intros Hret. unfold attempt_authorize. rewrite Hret.
  rewrite or_None_nonempty by (eapply retrieve_api_token_nonempty; eauto).
  destruct (_cleanup_messages_effect s)
    as (pops & Hev & Hpops & Hst & _ & _ & _ & _ & _ & _ & _ & _ & _ & _ & Hnh & Hds).
  set (c := _cleanup_messages s) in *.
  unfold _set_status, fetch_user, ret, outcome_of, state_of.
  destruct (decide (status c = Authorized)) as [E|E]; simpl.
  - split_all; auto.
    exists pops. rewrite Hev, Hnh, <- !app_assoc. split; [reflexivity |].
    rewrite forallb_forall in *. intros e He. specialize (Hpops e He).
    rewrite negb_orb in Hpops. apply andb_true_iff in Hpops. tauto.
  - split_all; auto.
    exists (pops ++ [Emit_status_changed Authorized]).
    rewrite Hev, Hnh, <- !app_assoc. split; [reflexivity |].
    rewrite forallb_app. simpl. rewrite andb_true_r.
    rewrite forallb_forall in *. intros e He. specialize (Hpops e He).
    rewrite negb_orb in Hpops. apply andb_true_iff in Hpops. tauto.
Qed.

Definition stored_backend : Backend :=
  snd (store_api_token OtherPlatform d20261104 "abc" 864000 empty_backend).

Lemma attempt_authorize_stored_token_witness :
  status
    (state_of
       (attempt_authorize OtherPlatform (fun _ => true)
          (init stored_backend d20261104)))
  = Authorized.
Proof.
  apply (attempt_authorize_stored_token OtherPlatform (fun _ => true)
           (init stored_backend d20261104) "abc").
  vm_compute. reflexivity.
Defined.

(** C9.  [start_authorization_workflow] with a workflow handle held raises
    the assertion error and leaves the state as it was: nothing is queued,
    no status changes, the held workflow is kept.  When it returns, no
    workflow was held before the call, and the new one is held after it. *)
Theorem start_authorization_workflow_asserts_idle s :
  (forall w, _workflow s = Some w ->
             start_authorization_workflow s = (Raised AssertionError, s))
  /\ (forall b s', start_authorization_workflow s = (Returned b, s') ->
                   _workflow s = None
                   /\ _workflow s' = Some (next_handle s)
                   /\ status s' = Authorizing
                   /\ b = false).
Proof.
  unfold start_authorization_workflow. split.
  - intros w ->. reflexivity.
  - intros b s'. destruct (_workflow s) as [w|] eqn:Hw.
    + discriminate.
    + destruct (_cleanup_messages_effect s)
        as (pops & _ & _ & Hst & Hwf & _ & _ & _ & _ & _ & _ & _ & _ & _ & Hnh & _).
      set (c := _cleanup_messages s) in *.
      unfold fresh, _set_status, ret. simpl.
      destruct (decide (status c = Authorizing)) as [E|E]; simpl;
        intros [= <- <-]; simpl; rewrite ?Hnh; auto.
Qed.

(** A host with no stored credential on which a first request has been
    accepted: the workflow is running. *)
Definition fresh_host : State := init empty_backend d20261104.

Definition authorizing_state : State :=
  state_of (authorization_callback OtherPlatform (fun _ => true) (Plain 1) fresh_host).

Lemma start_authorization_workflow_asserts_idle_witness :
  start_authorization_workflow authorizing_state
  = (Raised AssertionError, authorizing_state).
Proof.
  apply (proj1 (start_authorization_workflow_asserts_idle authorizing_state) 0%nat).
  vm_compute. reflexivity.
Defined.

(** C7.  When the dialog is cancelled in the [NotAuthorized] state, the
    status stays [NotAuthorized], the queue is emptied, and the only event
    is the dialog itself: no callback runs.  The same holds for a request
    that leads to the dialog, whose own callback is dropped with the rest. *)
Theorem cancel_dialog_clears_queue platform exec_ s :
  status s = NotAuthorized ->
  exec_ (dialogs_shown s) = false ->
  (let r := show_authorization_dialog exec_ s in
   outcome_of r = Returned tt
   /\ status (state_of r) = NotAuthorized
   /\ queued_callbacks (state_of r) = []
   /\ events (state_of r) = events s ++ [Dialog_exec false])
  /\ (forall cb,
         retrieve_api_token platform (currentDate s) (backend s) = None ->
         let r := authorization_callback platform exec_ cb s in
         outcome_of r = Returned false
         /\ status (state_of r) = NotAuthorized
         /\ queued_callbacks (state_of r) = []
         /\ events (state_of r) = events s ++ [Dialog_exec false]).
Proof.
  intros Hst Hno. split.
  - unfold show_authorization_dialog. rewrite Hno. simpl. auto.
  - intros cb Hret.
    unfold authorization_callback, authorization_callback_with.
    destruct (decide (status s = Authorized)) as [E|E]; [congruence |].
    unfold bind, run, attempt_authorize. simpl. rewrite Hret. simpl.
    unfold show_authorization_dialog. simpl. rewrite Hno. simpl. auto.
Qed.

Lemma cancel_dialog_clears_queue_witness :
  queued_callbacks
    (state_of (authorization_callback OtherPlatform (fun _ => false) (Plain 1) fresh_host))
  = [].
Proof.
  apply (proj2 (cancel_dialog_clears_queue OtherPlatform (fun _ => false) fresh_host
                  eq_refl eq_refl) (Plain 1)).
  vm_compute. reflexivity.
Defined.

(** C2, on the code: a request made in the [Authorizing] state (workflow
    running, no stored credential) does append the callback, but then shows
    the dialog again.  If that dialog is cancelled the whole queue is
    dropped and the status stays [Authorizing]; if it is accepted, the
    assertion of [start_authorization_workflow] is raised to the caller. *)
Theorem request_while_authorizing_reopens_dialog platform exec_ s cb w :
  status s = Authorizing ->
  _workflow s = Some w ->
  retrieve_api_token platform (currentDate s) (backend s) = None ->
  let r := authorization_callback platform exec_ cb s in
  dialogs_shown (state_of r) = S (dialogs_shown s)
  /\ events (state_of r) = events s ++ [Dialog_exec (exec_ (dialogs_shown s))]
  /\ status (state_of r) = Authorizing
  /\ outcome_of r =
       (if exec_ (dialogs_shown s) then Raised AssertionError else Returned false)
  /\ queued_callbacks (state_of r) =
       (if exec_ (dialogs_shown s) then queued_callbacks s ++ [cb] else []).
Proof.
  intros Hst Hw Hret.
  unfold authorization_callback, authorization_callback_with.
  destruct (decide (status s = Authorized)) as [E|E]; [congruence |].
  unfold bind, run, attempt_authorize. simpl. rewrite Hret. simpl.
  unfold show_authorization_dialog. simpl.
  destruct (exec_ (dialogs_shown s)) eqn:Hx; simpl.
  - unfold bind, start_authorization_workflow. simpl. rewrite Hw. simpl. auto.
  - auto.
Qed.

Lemma request_while_authorizing_reopens_dialog_witness :
  outcome_of (authorization_callback OtherPlatform (fun _ => true) (Plain 2)
                authorizing_state)
  = Raised AssertionError.
Proof.
  apply (request_while_authorizing_reopens_dialog OtherPlatform (fun _ => true)
           authorizing_state (Plain 2) 0%nat).
  - vm_compute. reflexivity.
  - vm_compute. reflexivity.
  - vm_compute. reflexivity.
Defined.

(** What the workflow's error signal does: the queue is emptied, the status
    is [NotAuthorized], [authorization_failed] is the last event and no
    callback runs.  The workflow handle is still held afterwards; it is
    released when the close timer fires. *)
Lemma _authorization_error_occurred_effect error s :
  let s' := _authorization_error_occurred error s in
  status s' = NotAuthorized
  /\ queued_callbacks s' = []
  /\ _workflow s' = _workflow s
  /\ dialogs_shown s' = dialogs_shown s
  /\ currentDate s' = currentDate s
  /\ backend s' = backend s
  /\ exists evs,
       events s' = events s ++ evs
       /\ last evs = Some Emit_authorization_failed
       /\ forallb (fun e => negb (is_callback_run e)) evs = true.
Proof.
  unfold _authorization_error_occurred.
  pose proof (_cleanup_messages_effect (set_queued_callbacks [] s)) as H.
  revert H. generalize (_cleanup_messages (set_queued_callbacks [] s)).
  intros c (pops & Hev & Hpops & Hst & Hwf & _ & _ & _ & _ & _ & _ & Hb & Hd & Hdel & Hnh & Hds).
  simpl in Hev, Hst, Hwf, Hb, Hd, Hdel, Hnh, Hds.
  assert (Hp : forallb (fun e => negb (is_callback_run e)) pops = true).
  { rewrite forallb_forall in *. intros e He. specialize (Hpops e He).
    rewrite negb_orb in Hpops. apply andb_true_iff in Hpops. tauto. }
  unfold _clean_workflow, alive.
  destruct (_workflow c) as [w|] eqn:Hw; [destruct (isdeleted c w) |];
    unfold fresh, _set_status; simpl;
    match goal with |- context [decide ?P] => destruct (decide P) end; simpl;
    (split_all; auto; try congruence;
     rewrite Hev, <- !app_assoc; eexists;
     (split; [reflexivity |]);
     (split; [rewrite !app_assoc; apply last_snoc
             | rewrite !forallb_app, Hp; reflexivity])).
Qed.

(** C6, on the code: [authorization_callback] raises to its caller when the
    dialog it opens is accepted while a workflow handle is held, as it is
    throughout [Authorizing] and still after an error until the close timer
    fires. *)
Theorem request_with_workflow_held_raises platform exec_ s cb w :
  status s <> Authorized ->
  _workflow s = Some w ->
  retrieve_api_token platform (currentDate s) (backend s) = None ->
  exec_ (dialogs_shown s) = true ->
  outcome_of (authorization_callback platform exec_ cb s) = Raised AssertionError.
Proof.
  intros Hst Hw Hret Hx.
  unfold authorization_callback, authorization_callback_with.
  destruct (decide (status s = Authorized)) as [E|E]; [congruence |].
  unfold bind, run, attempt_authorize. simpl. rewrite Hret. simpl.
  unfold show_authorization_dialog. simpl. rewrite Hx.
  unfold bind, start_authorization_workflow. simpl. rewrite Hw. reflexivity.
Qed.

(** The workflow has just reported an error: status [NotAuthorized], the
    workflow handle not yet released. *)
Definition failed_state : State :=
  _authorization_error_occurred "access_denied" authorizing_state.

Lemma request_with_workflow_held_raises_witness :
  status failed_state = NotAuthorized
  /\ outcome_of (authorization_callback OtherPlatform (fun _ => true) (Plain 2)
                   failed_state)
     = Raised AssertionError.
Proof.
  split; [vm_compute; reflexivity |].
  apply (request_with_workflow_held_raises OtherPlatform (fun _ => true)
           failed_state (Plain 2) 0%nat).
  - vm_compute. discriminate.
  - vm_compute. reflexivity.
  - vm_compute. reflexivity.
  - reflexivity.
Defined.

(** ** Draining the queue *)

Definition log_all (l : list Event) (s : State) : State :=
  fold_left (fun s e => log e s) l s.

Lemma log_all_fields l s :
  events (log_all l s) = events s ++ l
  /\ status (log_all l s) = status s
  /\ _workflow (log_all l s) = _workflow s
  /\ queued_callbacks (log_all l s) = queued_callbacks s
  /\ user (log_all l s) = user s
  /\ _user_reply (log_all l s) = _user_reply s
  /\ api_client_token (log_all l s) = api_client_token s
  /\ backend (log_all l s) = backend s
  /\ dialogs_shown (log_all l s) = dialogs_shown s.
Proof.
  revert s. induction l as [|e l IH]; intros s; simpl.
  - rewrite app_nil_r. split_all; reflexivity.
  - destruct (IH (log e s)) as (H1 & H2 & H3 & H4 & H5 & H6 & H7 & H8 & H9).
    unfold log_all in *. rewrite H1, H2, H3, H4, H5, H6, H7, H8, H9. simpl.
    rewrite <- app_assoc. split_all; reflexivity.
Qed.


(** The [Callback_run] events of one callback in the [Authorized] state:
    its own run, then, when it asks for authorization again, what that
    request runs at once. *)
Fixpoint runs (cb : Callback) : list Event :=
  match cb with
  | Plain id => [Callback_run id]
  | Requesting id inner => Callback_run id :: runs inner
  | Failing id => [Callback_run id]
  end.

(** Whether a callback, run in the [Authorized] state, raises. *)
Fixpoint raises (cb : Callback) : bool :=
  match cb with
  | Plain _ => false
  | Requesting _ inner => raises inner
  | Failing _ => true
  end.



(** A stand-in for [User.from_json] in examples: a body is read as a profile
    when it starts as a JSON object. *)
Definition object_json (body : string) : option User :=
  if String.prefix "{" body then Some (mkUser body) else None.

Section Drain.

Variable platform : Platform.
Variable exec_ : nat -> bool.
Variable from_json : string -> option User.

(** In the [Authorized] state a callback only runs, and returns unless it
    raises itself. *)
Lemma call_authorized cb s :
  status s = Authorized ->
  call platform exec_ cb s
  = (if raises cb then Raised CallbackError else Returned tt,
     log_all (runs cb) s).
Proof.
  revert s. induction cb as [id | id inner IH | id]; intros s Hst.
  - reflexivity.
  - simpl. unfold bind, run, authorization_callback_with. simpl.
    destruct (decide (status s = Authorized)) as [E|E]; [| congruence].
    unfold bind, ret. rewrite IH by exact Hst.
    destruct (raises inner); reflexivity.
  - reflexivity.
Qed.


(** Callbacks that do not call back into the manager run in any state. *)
Lemma for_each_call_plain ids s :
  for_each (call platform exec_) (map Plain ids) s
  = (Returned tt, log_all (map Callback_run ids) s).
Proof.
  revert s. induction ids as [|id ids IH]; intros s.
  - reflexivity.
  - simpl. unfold bind, run. rewrite IH. reflexivity.
Qed.

(** The reply of the current profile request, alive, neither a 401 nor an
    error, with a body that holds a profile: the profile is set and the
    queue is drained from a state whose queue is already empty. *)
Lemma _set_user_details_ok reply data profile s :
  _user_reply s = Some reply ->
  isdeleted s reply = false ->
  http_status data <> 401 ->
  has_error data = false ->
  from_json (body data) = Some profile ->
  _set_user_details platform exec_ from_json reply data s
  = for_each (call platform exec_) (queued_callbacks s)
      (set_queued_callbacks [] (set_user (Some profile) s)).
Proof.
  intros Hr Hd Hs He Hp. unfold _set_user_details.
  rewrite Hr, bool_decide_eq_true_2 by reflexivity. simpl.
  rewrite Hd. apply Z.eqb_neq in Hs. rewrite Hs, He, Hp. reflexivity.
Qed.



Lemma deauthorize_keeps s :
  status (deauthorize platform s) = NotAuthorized
  /\ api_client_token (deauthorize platform s) = None
  /\ _user_reply (deauthorize platform s) = _user_reply s
  /\ queued_callbacks (deauthorize platform s) = queued_callbacks s
  /\ deleted (deauthorize platform s) = deleted s.
Proof.
  unfold deauthorize, _set_status.
  destruct (decide (status s = NotAuthorized)); simpl; auto.
Qed.

End Drain.

(** C4, on the code: [deauthorize] keeps the profile request handle, so the
    reply that was in flight is still the current one when it arrives.  If
    it is a plain success (with a body that holds a profile) it is processed
    in the [NotAuthorized] state: the user profile is set and the queued
    callbacks are run. *)
Theorem reply_after_deauthorize_is_processed
    platform exec_ from_json s reply data profile ids :
  _user_reply s = Some reply ->
  isdeleted s reply = false ->
  http_status data <> 401 ->
  has_error data = false ->
  from_json (body data) = Some profile ->
  queued_callbacks s = map Plain ids ->
  let r := _set_user_details platform exec_ from_json reply data
             (deauthorize platform s) in
  outcome_of r = Returned tt
  /\ status (state_of r) = NotAuthorized
  /\ api_client_token (state_of r) = None
  /\ user (state_of r) = Some profile
  /\ queued_callbacks (state_of r) = []
  /\ events (state_of r)
     = events (deauthorize platform s) ++ map Callback_run ids.
Proof.
  intros Hr Hd Hs He Hp Hq.
  destruct (deauthorize_keeps platform s) as (Hst & Htok & Hrep & Hqueue & Hdel).
  assert (Hd' : isdeleted (deauthorize platform s) reply = false)
    by (unfold isdeleted in *; rewrite Hdel; exact Hd).
  revert Hst Htok Hrep Hqueue Hd'. generalize (deauthorize platform s).
  intros d Hst Htok Hrep Hqueue Hd' r. subst r.
  rewrite (_set_user_details_ok platform exec_ from_json reply data profile)
    by congruence.
  rewrite Hqueue, Hq, for_each_call_plain. unfold outcome_of, state_of.
  cbn [fst snd].
  match goal with |- context [log_all ?l ?x] =>
    destruct (log_all_fields l x) as (H1 & H2 & _ & H4 & H5 & _ & H7 & _)
  end.
  rewrite H1, H2, H4, H5, H7. simpl. split_all; auto.
Qed.

(** The first request has succeeded: status [Authorized], the callback of
    the request still queued, the profile request in flight. *)
Definition authorized_state : State :=
  _authorization_success OtherPlatform "tok" 864000 authorizing_state.

Lemma reply_after_deauthorize_is_processed_witness :
  let r := _set_user_details OtherPlatform (fun _ => true) object_json 3%nat
             (mkReplyData 200 false "{}")
             (deauthorize OtherPlatform authorized_state) in
  outcome_of r = Returned tt
  /\ status (state_of r) = NotAuthorized
  /\ api_client_token (state_of r) = None
  /\ user (state_of r) = Some (mkUser "{}")
  /\ queued_callbacks (state_of r) = []
  /\ events (state_of r)
     = events (deauthorize OtherPlatform authorized_state)
       ++ map Callback_run [1%nat].
Proof.
  refine (reply_after_deauthorize_is_processed OtherPlatform (fun _ => true)
            object_json authorized_state 3%nat (mkReplyData 200 false "{}")
            (mkUser "{}") [1%nat] _ _ _ _ _ _).
  - vm_compute. reflexivity.
  - vm_compute. reflexivity.
  - discriminate.
  - reflexivity.
  - reflexivity.
  - vm_compute. reflexivity.
Defined.

Lemma runs_plain ids : flat_map runs (map Plain ids) = map Callback_run ids.
Proof. induction ids as [|id ids IH]; simpl; [| rewrite IH]; reflexivity. Qed.


(** A callback that asks for authorization again while the queue is being
    drained in the [Authorized] state is run at once and is not queued. *)
Example reentrant_callback_runs_at_once :
  let s := set_queued_callbacks [Requesting 1 (Plain 2); Plain 3] authorized_state in
  let r := _set_user_details OtherPlatform (fun _ => true) object_json 3%nat
             (mkReplyData 200 false "{}") s in
  events (state_of r)
  = events authorized_state ++ [Callback_run 1; Callback_run 2; Callback_run 3]%nat
  /\ queued_callbacks (state_of r) = [].
Proof. vm_compute. split; reflexivity. Qed.

(** A body that is not a profile: the exception leaves with the callbacks
    still queued, none run. *)
Example unparsable_body_keeps_queue :
  let r := _set_user_details OtherPlatform (fun _ => true) object_json 3%nat
             (mkReplyData 200 false "<html>") authorized_state in
  outcome_of r = Raised ProfileError
  /\ queued_callbacks (state_of r) = [Plain 1]
  /\ existsb is_callback_run (events (state_of r)) = false.
Proof. vm_compute. split_all; reflexivity. Qed.

(** A callback that raises ends the pass: the callbacks after it are never
    run, and the queue was emptied before the pass began. *)
Example raising_callback_ends_pass :
  let s := set_queued_callbacks [Plain 1; Failing 2; Plain 3] authorized_state in
  let r := _set_user_details OtherPlatform (fun _ => true) object_json 3%nat
             (mkReplyData 200 false "{}") s in
  outcome_of r = Raised CallbackError
  /\ events (state_of r)
     = events authorized_state ++ [Callback_run 1; Callback_run 2]%nat
  /\ queued_callbacks (state_of r) = [].
Proof. vm_compute. split_all; reflexivity. Qed.


(** * Further properties of the token store *)

Lemma records_after_remove platform b :
  token_record platform (remove_api_token platform b) = None
  /\ expiry_record platform (remove_api_token platform b) = expiry_record platform b.
Proof.
  destruct platform; simpl; split;
    first [ apply lookup_delete_eq | apply lookup_delete_ne; discriminate ].
Qed.

(** X1.  After [remove_api_token], [retrieve_api_token] returns none on
    every date, whatever the backend held and although the expiry record is
    left in place. *)
Theorem remove_then_retrieve_none platform today b :
  retrieve_api_token platform today (remove_api_token platform b) = None
  /\ expiry_record platform (remove_api_token platform b) = expiry_record platform b.
Proof.
  destruct (records_after_remove platform b) as [Ht He].
  split; [| exact He].
  rewrite retrieve_api_token_unfold, Ht.
  destruct (truthy _); [| reflexivity].
  destruct (QDate.le _ _); reflexivity.
Qed.

(** X2.  A second [store_api_token] replaces the credential of the first:
    what [retrieve_api_token] returns afterwards, on any date, is what it
    returns after the second store alone. *)
Theorem store_replaces_credential platform day1 tok1 exp1 day2 tok2 exp2 today b :
  retrieve_api_token platform today
    (snd (store_api_token platform day2 tok2 exp2
            (snd (store_api_token platform day1 tok1 exp1 b))))
  = retrieve_api_token platform today
      (snd (store_api_token platform day2 tok2 exp2 b)).
Proof.
  rewrite !retrieve_api_token_unfold.
  destruct (records_after_store platform day2 tok2 exp2
              (snd (store_api_token platform day1 tok1 exp1 b))) as [-> ->].
  destruct (records_after_store platform day2 tok2 exp2 b) as [-> ->].
  reflexivity.
Qed.

(** X3.  A token that [retrieve_api_token] returns on some day is returned,
    unchanged, on every earlier day: a credential never becomes valid by
    waiting, and once it is refused it stays refused. *)
Theorem retrieve_earlier_day platform b day earlier tok :
  retrieve_api_token platform day b = Some tok ->
  earlier <= day ->
  retrieve_api_token platform earlier b = Some tok.
Proof.
  rewrite !retrieve_api_token_unfold. unfold QDate.le.
  destruct (truthy (expiry_record platform b)); [| discriminate].
  destruct (Z.leb_spec (QDate.fromString (default "" (expiry_record platform b))) day);
    [discriminate |].
  intros Htok Hle.
  destruct (Z.leb_spec (QDate.fromString (default "" (expiry_record platform b))) earlier);
    [lia | exact Htok].
Qed.

Lemma retrieve_earlier_day_witness :
  retrieve_api_token OtherPlatform (d20261104 - 30) stored_backend = Some "abc".
Proof.
  refine (retrieve_earlier_day OtherPlatform stored_backend d20261104
            (d20261104 - 30) "abc" _ _).
  - vm_compute. reflexivity.
  - vm_compute. discriminate.
Defined.

(** X4.  An empty token is stored but never retrieved: whatever the expiry
    and the date, [retrieve_api_token] returns none after
    [store_api_token] of the empty string. *)
Theorem store_empty_token_not_retrieved platform stored_on expiry today b :
  fst (store_api_token platform stored_on "" expiry b) = true
  /\ token_record platform (snd (store_api_token platform stored_on "" expiry b))
     = Some ""
  /\ retrieve_api_token platform today
       (snd (store_api_token platform stored_on "" expiry b)) = None.
Proof.
  destruct (records_after_store platform stored_on "" expiry b) as [Ht He].
  split; [destruct platform; reflexivity |].
  split; [exact Ht |].
  rewrite retrieve_api_token_unfold, Ht.
  destruct (truthy _); [| reflexivity].
  destruct (QDate.le _ _); reflexivity.
Qed.


(** * Further properties of the authorization lifecycle *)

(** ** What the host can make happen

    The entry points of the manager as the host drives them: the public
    methods, the slots connected to the workflow's signals, to the profile
    reply, to the close timer, to the login action and to the retry button,
    and the host's own moves (the date changes, an object is disposed of).
    An exception raised by a slot is lost; the state it leaves stays. *)
Inductive Input :=
| Call_authorization_callback (callback : Callback)
| Call_attempt_authorize
| Call_deauthorize
| Call_cleanup
| Login_action_triggered
| Retry_clicked
| Workflow_finished (token : string) (expiry : Z)
| Workflow_error_occurred (error : string)
| Reply_finished (reply : Handle) (data : ReplyData)
| Close_timer_timeout
| Date_changed (today : QDate.t)
| Object_disposed (h : Handle).

Section Host.

Variable platform : Platform.
Variable exec_ : nat -> bool.
Variable from_json : string -> option User.

Definition handle_input (i : Input) (s : State) : State :=
  match i with
  | Call_authorization_callback cb =>
      state_of (authorization_callback platform exec_ cb s)
  | Call_attempt_authorize => state_of (attempt_authorize platform exec_ s)
  | Call_deauthorize => deauthorize platform s
  | Call_cleanup => cleanup s
  | Login_action_triggered => state_of (_login_action_triggered platform exec_ s)
  | Retry_clicked => state_of (show_authorization_dialog exec_ s)
  | Workflow_finished token expiry => _authorization_success platform token expiry s
  | Workflow_error_occurred error => _authorization_error_occurred error s
  | Reply_finished reply data =>
      state_of (_set_user_details platform exec_ from_json reply data s)
  | Close_timer_timeout => _close_auth_server false s
  | Date_changed today => set_currentDate today s
  | Object_disposed h => dispose h s
  end.

Definition handle_inputs (inputs : list Input) (s : State) : State :=
  fold_left (fun s i => handle_input i s) inputs s.

End Host.

(** The label and the enabled flag the login action has in each status. *)
Definition login_action_for (st : AuthState) : LoginAction :=
  match st with
  | NotAuthorized => mkLoginAction "Sign In…" true
  | Authorizing => mkLoginAction "Authorizing…" false
  | Authorized => mkLoginAction "Log Out" true
  end.

Definition below (n : Handle) (x : option Handle) : Prop :=
  match x with
  | Some h => (h < n)%nat
  | None => True
  end.

(** What holds of the manager between two entries: the login action shows
    the status, an authorized manager has given the client a token, and
    every object the manager holds was made before the next one will be. *)
Record Consistent (s : State) : Prop := mkConsistent {
  login_action_shows_status : login_action s = login_action_for (status s);
  authorized_has_token : status s = Authorized -> api_client_token s <> None;
  workflow_below : below (next_handle s) (_workflow s);
  timer_below : below (next_handle s) (oauth_close_timer s);
  authorizing_message_below : below (next_handle s) (_authorizing_message s);
  failed_message_below : below (next_handle s) (_authorization_failed_message s);
  user_reply_below : below (next_handle s) (_user_reply s)
}.

Lemma below_S n x : below n x -> below (S n) x.
Proof. destruct x; simpl; lia. Qed.

Lemma Consistent_init b today : Consistent (init b today).
Proof. constructor; simpl; auto; discriminate. Qed.

Ltac consistent_cases :=
  repeat match goal with
    | |- context [decide ?P] => destruct (decide P); simpl in *
    | |- context [alive ?s ?x] =>
        let E := fresh "E" in destruct (alive s x) eqn:E; simpl in *
    | |- context [match ?x with NotAuthorized => _ | Authorizing => _ | Authorized => _ end] =>
        let E := fresh "E" in destruct x eqn:E; simpl in *
    end.

Ltac consistent_done :=
  constructor; simpl in *;
  try solve [ auto using below_S | congruence | discriminate
            | intros; congruence | lia ].

Lemma Consistent__set_status st s :
  st <> Authorized -> Consistent s -> Consistent (_set_status st s).
Proof.
  intros Hst [H1 H2 H3 H4 H5 H6 H7]. unfold _set_status.
  destruct (decide (status s = st)); [constructor; assumption |].
  destruct st; simpl; consistent_done.
Qed.

Lemma Consistent__cleanup_messages s :
  Consistent s -> Consistent (_cleanup_messages s).
Proof.
  intros [H1 H2 H3 H4 H5 H6 H7]. unfold _cleanup_messages.
  destruct (alive s (_authorizing_message s)); simpl;
    match goal with |- context [alive ?s ?x] => destruct (alive s x) end;
    simpl; consistent_done.
Qed.

Lemma Consistent__clean_workflow s :
  Consistent s -> Consistent (_clean_workflow s).
Proof.
  intros [H1 H2 H3 H4 H5 H6 H7]. unfold _clean_workflow.
  destruct (alive s (_workflow s)); simpl; consistent_done.
Qed.

Lemma Consistent__close_auth_server force_close s :
  Consistent s -> Consistent (_close_auth_server force_close s).
Proof.
  intros [H1 H2 H3 H4 H5 H6 H7]. unfold _close_auth_server.
  destruct (alive s (oauth_close_timer s)); simpl;
    match goal with |- context [alive ?s ?x] => destruct (alive s x) end;
    simpl; destruct force_close; simpl; consistent_done.
Qed.

Lemma Consistent_cleanup s : Consistent s -> Consistent (cleanup s).
Proof.
  intros [H1 H2 H3 H4 H5 H6 H7]. unfold cleanup.
  apply Consistent__close_auth_server.
  destruct (alive s (_user_reply s)); simpl; consistent_done.
Qed.

Lemma Consistent_deauthorize platform s :
  Consistent s -> Consistent (deauthorize platform s).
Proof.
  intros H. unfold deauthorize.
  apply (Consistent__set_status NotAuthorized) in H; [| discriminate].
  assert (Hst : status (_set_status NotAuthorized s) = NotAuthorized).
  { unfold _set_status. destruct (decide (status s = NotAuthorized)); auto. }
  destruct H as [H1 H2 H3 H4 H5 H6 H7].
  constructor; simpl; auto. rewrite Hst. discriminate.
Qed.

Lemma Consistent__set_status_token st s :
  api_client_token s <> None -> Consistent s -> Consistent (_set_status st s).
Proof.
  intros Htok [H1 H2 H3 H4 H5 H6 H7]. unfold _set_status.
  destruct (decide (status s = st)); [constructor; assumption |].
  destruct st; simpl; consistent_done.
Qed.

Lemma Consistent_fetch_user s : Consistent s -> Consistent (fetch_user s).
Proof.
  intros [H1 H2 H3 H4 H5 H6 H7]. unfold fetch_user. simpl. consistent_done.
Qed.

Lemma Consistent_log e s : Consistent s -> Consistent (log e s).
Proof. intros [H1 H2 H3 H4 H5 H6 H7]. consistent_done. Qed.

Lemma Consistent_set_queued_callbacks q s :
  Consistent s -> Consistent (set_queued_callbacks q s).
Proof. intros [H1 H2 H3 H4 H5 H6 H7]. consistent_done. Qed.

Lemma Consistent_set_user u s : Consistent s -> Consistent (set_user u s).
Proof. intros [H1 H2 H3 H4 H5 H6 H7]. consistent_done. Qed.

Lemma Consistent_set_user_reply_None s :
  Consistent s -> Consistent (set_user_reply None s).
Proof. intros [H1 H2 H3 H4 H5 H6 H7]. consistent_done. Qed.

Lemma Consistent_set_backend b s : Consistent s -> Consistent (set_backend b s).
Proof. intros [H1 H2 H3 H4 H5 H6 H7]. consistent_done. Qed.

Lemma Consistent_count_dialog s : Consistent s -> Consistent (count_dialog s).
Proof. intros [H1 H2 H3 H4 H5 H6 H7]. consistent_done. Qed.

Lemma Consistent_start_authorization_workflow s :
  Consistent s -> Consistent (state_of (start_authorization_workflow s)).
Proof.
  intros H. unfold start_authorization_workflow.
  destruct (_workflow s) eqn:Hw; [exact H |].
  apply Consistent__cleanup_messages in H.
  revert H. generalize (_cleanup_messages s). intros c [H1 H2 H3 H4 H5 H6 H7].
  destruct c. unfold fresh, _set_status, ret, state_of. simpl in *.
  match goal with |- context [decide ?P] => destruct (decide P) end;
    simpl; consistent_done.
Qed.

Lemma Consistent_show_authorization_dialog exec_ s :
  Consistent s -> Consistent (state_of (show_authorization_dialog exec_ s)).
Proof.
  intros H. unfold show_authorization_dialog.
  apply Consistent_count_dialog, (Consistent_log (Dialog_exec (exec_ (dialogs_shown s)))) in H.
  revert H. generalize (log (Dialog_exec (exec_ (dialogs_shown s))) (count_dialog s)).
  intros x H. destruct (exec_ (dialogs_shown s)).
  - apply Consistent_start_authorization_workflow in H. unfold bind.
    destruct (start_authorization_workflow x) as [[b0|ex] x']; exact H.
  - apply Consistent_set_queued_callbacks. exact H.
Qed.

Lemma Consistent_attempt_authorize platform exec_ s :
  Consistent s -> Consistent (state_of (attempt_authorize platform exec_ s)).
Proof.
  intros H. unfold attempt_authorize.
  destruct (or_None _) as [tok|].
  - unfold ret, state_of. cbn [snd].
    apply Consistent_fetch_user, Consistent_log.
    apply Consistent__cleanup_messages in H.
    revert H. generalize (_cleanup_messages s). intros c H.
    unfold _set_status. destruct (decide (status c = Authorized)); simpl;
      destruct H as [H1 H2 H3 H4 H5 H6 H7]; consistent_done.
  - apply Consistent_show_authorization_dialog. exact H.
Qed.

Lemma Consistent__login_action_triggered platform exec_ s :
  Consistent s -> Consistent (state_of (_login_action_triggered platform exec_ s)).
Proof.
  intros H. unfold _login_action_triggered. destruct (status s).
  - apply Consistent_attempt_authorize. exact H.
  - exact H.
  - apply Consistent_deauthorize. exact H.
Qed.

Lemma Consistent_call platform exec_ cb s :
  Consistent s -> Consistent (state_of (call platform exec_ cb s)).
Proof.
  revert s. induction cb as [id | id inner IH | id]; intros s H;
    [| | apply (Consistent_log (Callback_run id)); exact H].
  - apply Consistent_log. exact H.
  - simpl. unfold bind, run, authorization_callback_with.
    apply (Consistent_log (Callback_run id)) in H.
    revert H. generalize (log (Callback_run id) s). intros x H.
    destruct (decide (status x = Authorized)).
    + unfold bind. specialize (IH x H).
      destruct (call platform exec_ inner x) as [[u|ex] x']; exact IH.
    + unfold bind, run.
      apply (Consistent_set_queued_callbacks (queued_callbacks x ++ [inner])) in H.
      apply (Consistent_attempt_authorize platform exec_) in H.
      destruct (attempt_authorize platform exec_ _) as [[u|ex] x']; exact H.
Qed.

Lemma Consistent_authorization_callback platform exec_ cb s :
  Consistent s -> Consistent (state_of (authorization_callback platform exec_ cb s)).
Proof.
  intros H. unfold authorization_callback, authorization_callback_with.
  destruct (decide (status s = Authorized)).
  - unfold bind. apply (Consistent_call platform exec_ cb) in H.
    destruct (call platform exec_ cb s) as [[u|ex] x']; exact H.
  - unfold bind, run.
    apply (Consistent_set_queued_callbacks (queued_callbacks s ++ [cb])) in H.
    apply (Consistent_attempt_authorize platform exec_) in H.
    destruct (attempt_authorize platform exec_ _) as [[u|ex] x']; exact H.
Qed.

Lemma Consistent_for_each_call platform exec_ cbs s :
  Consistent s -> Consistent (state_of (for_each (call platform exec_) cbs s)).
Proof.
  revert s. induction cbs as [|cb cbs IH]; intros s H.
  - exact H.
  - simpl. unfold bind. apply (Consistent_call platform exec_ cb) in H.
    destruct (call platform exec_ cb s) as [[u|ex] x']; [apply IH |]; exact H.
Qed.

Lemma Consistent__authorization_error_occurred error s :
  Consistent s -> Consistent (_authorization_error_occurred error s).
Proof.
  intros H. unfold _authorization_error_occurred.
  apply (Consistent_set_queued_callbacks []), Consistent__cleanup_messages,
    Consistent__clean_workflow, (Consistent__set_status NotAuthorized) in H;
    [| discriminate].
  revert H. generalize (_set_status NotAuthorized
    (_clean_workflow (_cleanup_messages (set_queued_callbacks [] s)))).
  intros x [H1 H2 H3 H4 H5 H6 H7]. simpl. consistent_done.
Qed.

Lemma Consistent__authorization_success platform token expiry s :
  Consistent s -> Consistent (_authorization_success platform token expiry s).
Proof.
  intros H. unfold _authorization_success.
  apply Consistent_fetch_user, Consistent_log, Consistent__clean_workflow,
    Consistent_set_backend.
  apply Consistent__cleanup_messages in H.
  revert H. generalize (_cleanup_messages s). intros c H.
  unfold _set_status. destruct (decide (status c = Authorized)); simpl;
    destruct H as [H1 H2 H3 H4 H5 H6 H7]; consistent_done.
Qed.

Lemma Consistent__set_user_details platform exec_ from_json reply data s :
  Consistent s ->
  Consistent (state_of (_set_user_details platform exec_ from_json reply data s)).
Proof.
  intros H. unfold _set_user_details.
  destruct (negb _); [exact H |].
  destruct (isdeleted s reply); [apply Consistent_set_user_reply_None; exact H |].
  destruct (http_status data =? 401).
  - unfold bind, run.
    apply Consistent_attempt_authorize, Consistent_deauthorize,
      Consistent_set_user_reply_None. exact H.
  - destruct (has_error data); [apply Consistent_set_user_reply_None; exact H |].
    destruct (from_json (body data)) as [profile|]; [| exact H].
    apply Consistent_for_each_call, Consistent_set_queued_callbacks,
      Consistent_set_user. exact H.
Qed.

Lemma Consistent_reachable platform exec_ from_json inputs b today :
  Consistent (handle_inputs platform exec_ from_json inputs (init b today)).
Proof.
  unfold handle_inputs.
  generalize (Consistent_init b today). generalize (init b today).
  induction inputs as [|i inputs IH]; intros s H; [exact H |].
  simpl. apply IH. destruct i; simpl.
  - apply Consistent_authorization_callback. exact H.
  - apply Consistent_attempt_authorize. exact H.
  - apply Consistent_deauthorize. exact H.
  - apply Consistent_cleanup. exact H.
  - apply Consistent__login_action_triggered. exact H.
  - apply Consistent_show_authorization_dialog. exact H.
  - apply Consistent__authorization_success. exact H.
  - apply Consistent__authorization_error_occurred. exact H.
  - apply Consistent__set_user_details. exact H.
  - apply Consistent__close_auth_server. exact H.
  - destruct H as [H1 H2 H3 H4 H5 H6 H7]. consistent_done.
  - destruct H as [H1 H2 H3 H4 H5 H6 H7]. consistent_done.
Qed.

(** X5.  Whatever the host does, in whatever order, between two entries the
    login action shows the status: "Sign In…" enabled when [NotAuthorized],
    "Authorizing…" disabled when [Authorizing], "Log Out" enabled when
    [Authorized]. *)
Theorem login_action_always_shows_status platform exec_ from_json inputs b today :
  let s := handle_inputs platform exec_ from_json inputs (init b today) in
  login_action s = login_action_for (status s).
Proof. apply login_action_shows_status, Consistent_reachable. Qed.

(** X6.  Whatever the host does, whenever [is_authorized] answers true the
    shared client holds a token. *)
Theorem authorized_always_has_token platform exec_ from_json inputs b today :
  let s := handle_inputs platform exec_ from_json inputs (init b today) in
  is_authorized s = true -> api_client_token s <> None.
Proof.
  intros s Hauth. apply authorized_has_token.
  - apply Consistent_reachable.
  - unfold is_authorized in Hauth. apply bool_decide_eq_true_1 in Hauth. exact Hauth.
Qed.

Lemma authorized_always_has_token_witness :
  api_client_token
    (handle_inputs OtherPlatform (fun _ => true) object_json
       [Call_authorization_callback (Plain 1); Workflow_finished "tok" 864000]
       (init empty_backend d20261104))
  <> None.
Proof.
  apply (authorized_always_has_token OtherPlatform (fun _ => true) object_json
           [Call_authorization_callback (Plain 1); Workflow_finished "tok" 864000]
           empty_backend d20261104).
  vm_compute. reflexivity.
Defined.

(** ** The success of the workflow *)

Definition quiet (e : Event) : bool := negb (is_dialog e || is_callback_run e).

Lemma _set_status_effect st s :
  status (_set_status st s) = st
  /\ _workflow (_set_status st s) = _workflow s
  /\ oauth_close_timer (_set_status st s) = oauth_close_timer s
  /\ _authorizing_message (_set_status st s) = _authorizing_message s
  /\ _authorization_failed_message (_set_status st s) = _authorization_failed_message s
  /\ queued_callbacks (_set_status st s) = queued_callbacks s
  /\ _user_reply (_set_status st s) = _user_reply s
  /\ api_client_token (_set_status st s) = api_client_token s
  /\ backend (_set_status st s) = backend s
  /\ currentDate (_set_status st s) = currentDate s
  /\ deleted (_set_status st s) = deleted s
  /\ next_handle (_set_status st s) = next_handle s
  /\ dialogs_shown (_set_status st s) = dialogs_shown s
  /\ events (_set_status st s)
     = events s ++ (if decide (status s = st) then [] else [Emit_status_changed st])
  /\ user (_set_status st s)
     = (if decide (status s = st) then user s
        else match st with Authorized => user s | _ => None end).
Proof.
  unfold _set_status. destruct (decide (status s = st)) as [E|E].
  - rewrite app_nil_r. split_all; auto.
  - destruct st; simpl; split_all; reflexivity.
Qed.

Lemma _clean_workflow_effect s :
  status (_clean_workflow s) = status s
  /\ _workflow (_clean_workflow s) = _workflow s
  /\ queued_callbacks (_clean_workflow s) = queued_callbacks s
  /\ user (_clean_workflow s) = user s
  /\ _user_reply (_clean_workflow s) = _user_reply s
  /\ api_client_token (_clean_workflow s) = api_client_token s
  /\ backend (_clean_workflow s) = backend s
  /\ currentDate (_clean_workflow s) = currentDate s
  /\ deleted (_clean_workflow s) = deleted s
  /\ dialogs_shown (_clean_workflow s) = dialogs_shown s
  /\ (next_handle s <= next_handle (_clean_workflow s))%nat
  /\ exists evs,
       events (_clean_workflow s) = events s ++ evs
       /\ forallb quiet evs = true.
Proof.
  unfold _clean_workflow. destruct (alive s (_workflow s)); simpl.
  - split_all; try reflexivity; [lia |]. eexists. split; reflexivity.
  - split_all; try reflexivity. exists []. rewrite app_nil_r. split; reflexivity.
Qed.

Lemma _authorization_success_effect platform token expiry s :
  let s' := _authorization_success platform token expiry s in
  status s' = Authorized
  /\ api_client_token s' = Some token
  /\ backend s'
     = snd (store_api_token platform (currentDate s) token expiry (backend s))
  /\ queued_callbacks s' = queued_callbacks s
  /\ _workflow s' = _workflow s
  /\ currentDate s' = currentDate s
  /\ dialogs_shown s' = dialogs_shown s
  /\ deleted s' = deleted s
  /\ exists h evs,
       _user_reply s' = Some h
       /\ (next_handle s <= h)%nat
       /\ next_handle s' = S h
       /\ events s' = events s ++ evs
       /\ forallb quiet evs = true
       /\ last evs = Some (Api_user h).
Proof.
  unfold _authorization_success.
  pose proof (_cleanup_messages_effect s) as H.
  revert H. generalize (_cleanup_messages s).
  intros c (pops & Hev & Hpops & Hst & Hwf & _ & Hq & _ & _ & _ & _
            & Hb & Hd & Hdel & Hnh & Hds).
  fold quiet in Hpops.
  pose proof (_set_status_effect Authorized c) as H.
  revert H. generalize (_set_status Authorized c).
  intros a (Ast & Awf & _ & _ & _ & Aq & _ & _ & Ab & Ad & Adel & Anh & Ads & Aev & _).
  match goal with |- context [_clean_workflow ?x] =>
    pose proof (_clean_workflow_effect x) as H; revert H;
    generalize (_clean_workflow x)
  end.
  cbn [status _workflow queued_callbacks user _user_reply api_client_token
       backend currentDate deleted dialogs_shown next_handle events
       set_backend set_token log].
  intros d (Dst & Dwf & Dq & _ & _ & Dtok & Db & Dd & Ddel & Dds & Dnh & evs & Dev & Dquiet).
  unfold fetch_user, fresh.
  cbn [status _workflow queued_callbacks user _user_reply api_client_token
       backend currentDate deleted dialogs_shown next_handle events
       set_user_reply log].
  split_all; try congruence.
  exists (next_handle d), (pops ++ (if decide (status c = Authorized) then []
                                     else [Emit_status_changed Authorized])
                           ++ [MessageBar_pushSuccess] ++ evs
                           ++ [Emit_authorized; Api_user (next_handle d)]).
  split_all.
  - reflexivity.
  - lia.
  - reflexivity.
  - rewrite Dev, Aev, Hev. rewrite <- !app_assoc. reflexivity.
  - rewrite !forallb_app, Hpops, Dquiet. destruct (decide _); reflexivity.
  - rewrite !last_app. reflexivity.
Qed.

Lemma quiet_no_callback evs :
  forallb quiet evs = true ->
  forallb (fun e => negb (is_callback_run e)) evs = true
  /\ forallb (fun e => negb (is_dialog e)) evs = true.
Proof.
  rewrite !forallb_forall. intros H. split; intros e He;
    specialize (H e He); unfold quiet in H; rewrite negb_orb in H;
    apply andb_true_iff in H; tauto.
Qed.

(** X7.  When the workflow succeeds the manager becomes [Authorized], gives
    the token to the client, persists it, and asks for the profile, which is
    the last thing it does; the queued callbacks are left waiting: none
    runs, none is dropped.  No dialog is shown and the workflow handle is
    still held. *)
Theorem authorization_success_keeps_callbacks_waiting platform token expiry s :
  let s' := _authorization_success platform token expiry s in
  is_authorized s' = true
  /\ api_client_token s' = Some token
  /\ token_record platform (backend s') = Some token
  /\ queued_callbacks s' = queued_callbacks s
  /\ _workflow s' = _workflow s
  /\ exists h evs,
       _user_reply s' = Some h
       /\ events s' = events s ++ evs
       /\ forallb (fun e => negb (is_callback_run e)) evs = true
       /\ forallb (fun e => negb (is_dialog e)) evs = true
       /\ last evs = Some (Api_user h).
Proof.
  destruct (_authorization_success_effect platform token expiry s)
    as (Hst & Htok & Hb & Hq & Hw & _ & _ & _ & h & evs & Hr & _ & _ & Hev
        & Hquiet & Hlast).
  pose proof (records_after_store platform (currentDate s) token expiry (backend s))
    as [Hrec _].
  apply quiet_no_callback in Hquiet as [Hc Hd].
  intros s'. subst s'. split_all; auto.
  - unfold is_authorized. apply bool_decide_eq_true_2. exact Hst.
  - rewrite Hb. exact Hrec.
  - exists h, evs. auto.
Qed.

(** X8.  A reply that is not the reply of the current profile request is
    ignored: the state stays as it is and nothing runs.  In particular, once
    the workflow has succeeded again and a new profile request is out, the
    reply to the request that was current before is ignored. *)
Theorem superseded_reply_ignored platform exec_ from_json s :
  (forall reply data,
      _user_reply s <> Some reply ->
      _set_user_details platform exec_ from_json reply data s = (Returned tt, s))
  /\ (forall old token expiry data,
         _user_reply s = Some old ->
         (old < next_handle s)%nat ->
         let s' := _authorization_success platform token expiry s in
         _set_user_details platform exec_ from_json old data s'
         = (Returned tt, s')).
Proof.
  assert (Hstale : forall x reply data,
             _user_reply x <> Some reply ->
             _set_user_details platform exec_ from_json reply data x
             = (Returned tt, x)).
  { intros x reply data Hne. unfold _set_user_details.
    rewrite bool_decide_eq_false_2 by congruence. reflexivity. }
  split; [apply Hstale |].
  intros old token expiry data Hold Hlt s'. apply Hstale.
  destruct (_authorization_success_effect platform token expiry s)
    as (_ & _ & _ & _ & _ & _ & _ & _ & h & evs & Hr & Hle & _).
  subst s'. rewrite Hr. intros [= ->]. lia.
Qed.

Lemma superseded_reply_ignored_witness :
  let s' := _authorization_success OtherPlatform "tok2" 864000 authorized_state in
  _set_user_details OtherPlatform (fun _ => true) object_json 3%nat
    (mkReplyData 200 false "{}") s'
  = (Returned tt, s').
Proof.
  refine (proj2 (superseded_reply_ignored OtherPlatform (fun _ => true)
                   object_json authorized_state)
            3%nat "tok2" 864000 (mkReplyData 200 false "{}") _ _).
  - vm_compute. reflexivity.
  - vm_compute. lia.
Defined.

(** ** The two ways of [attempt_authorize] *)

Lemma attempt_authorize_with_token platform exec_ s tok :
  retrieve_api_token platform (currentDate s) (backend s) = Some tok ->
  attempt_authorize platform exec_ s
  = (Returned tt,
     fetch_user (log Emit_authorized
       (set_token (Some tok) (_set_status Authorized (_cleanup_messages s))))).
Proof.
  intros Hret. unfold attempt_authorize. rewrite Hret.
  rewrite or_None_nonempty by (eapply retrieve_api_token_nonempty; eauto).
  reflexivity.
Qed.

Lemma attempt_authorize_without_token platform exec_ s :
  retrieve_api_token platform (currentDate s) (backend s) = None ->
  attempt_authorize platform exec_ s = show_authorization_dialog exec_ s.
Proof. intros Hret. unfold attempt_authorize. rewrite Hret. reflexivity. Qed.

(** [start_authorization_workflow] with no workflow held. *)
Lemma start_authorization_workflow_idle s :
  _workflow s = None ->
  exists s' h evs,
    start_authorization_workflow s = (Returned false, s')
    /\ status s' = Authorizing
    /\ _workflow s' = Some h
    /\ (next_handle s <= h < next_handle s')%nat
    /\ queued_callbacks s' = queued_callbacks s
    /\ _user_reply s' = _user_reply s
    /\ api_client_token s' = api_client_token s
    /\ backend s' = backend s
    /\ currentDate s' = currentDate s
    /\ deleted s' = deleted s
    /\ dialogs_shown s' = dialogs_shown s
    /\ events s' = events s ++ evs
    /\ forallb quiet evs = true
    /\ last evs = Some (Workflow_start h).
Proof.
  intros Hw. unfold start_authorization_workflow. rewrite Hw.
  pose proof (_cleanup_messages_effect s) as H.
  revert H. generalize (_cleanup_messages s).
  intros c (pops & Hev & Hpops & Hst & Hwf & _ & Hq & _ & Hr & _ & Htok
            & Hb & Hd & Hdel & Hnh & Hds).
  fold quiet in Hpops. cbv beta iota zeta delta [fresh].
  match goal with |- context [_set_status Authorizing ?x] =>
    pose proof (_set_status_effect Authorizing x) as H; revert H;
    generalize (_set_status Authorizing x)
  end.
  cbn [status _workflow queued_callbacks user _user_reply api_client_token
       backend currentDate deleted dialogs_shown next_handle events
       oauth_close_timer _authorizing_message _authorization_failed_message
       set_workflow fst snd].
  intros a (Ast & Awf & _ & _ & _ & Aq & Ar & Atok & Ab & Ad & Adel & Anh & Ads & Aev & _).
  unfold ret.
  eexists _, (next_handle c), _. split; [reflexivity |].
  cbn [status _workflow queued_callbacks user _user_reply api_client_token
       backend currentDate deleted dialogs_shown next_handle events
       set_authorizing_message log].
  split_all; try congruence; try lia.
  - rewrite Aev, Hev, <- !app_assoc. reflexivity.
  - rewrite !forallb_app, Hpops. destruct (decide _); reflexivity.
  - rewrite !last_app. reflexivity.
Qed.

(** The three ways of [show_authorization_dialog]. *)
Lemma show_authorization_dialog_cancelled exec_ s :
  exec_ (dialogs_shown s) = false ->
  show_authorization_dialog exec_ s
  = (Returned tt,
     set_queued_callbacks [] (log (Dialog_exec false) (count_dialog s))).
Proof. intros Hx. unfold show_authorization_dialog. rewrite Hx. reflexivity. Qed.

Lemma show_authorization_dialog_held exec_ s w :
  exec_ (dialogs_shown s) = true ->
  _workflow s = Some w ->
  show_authorization_dialog exec_ s
  = (Raised AssertionError, log (Dialog_exec true) (count_dialog s)).
Proof.
  intros Hx Hw. unfold show_authorization_dialog. rewrite Hx.
  unfold bind, start_authorization_workflow.
  cbn [_workflow log count_dialog]. rewrite Hw. reflexivity.
Qed.

Lemma show_authorization_dialog_idle exec_ s :
  exec_ (dialogs_shown s) = true ->
  _workflow s = None ->
  exists s' h evs,
    show_authorization_dialog exec_ s = (Returned tt, s')
    /\ status s' = Authorizing
    /\ _workflow s' = Some h
    /\ (next_handle s <= h < next_handle s')%nat
    /\ queued_callbacks s' = queued_callbacks s
    /\ _user_reply s' = _user_reply s
    /\ api_client_token s' = api_client_token s
    /\ backend s' = backend s
    /\ currentDate s' = currentDate s
    /\ deleted s' = deleted s
    /\ dialogs_shown s' = S (dialogs_shown s)
    /\ events s' = events s ++ Dialog_exec true :: evs
    /\ forallb quiet evs = true
    /\ last evs = Some (Workflow_start h).
Proof.
  intros Hx Hw. unfold show_authorization_dialog. rewrite Hx.
  destruct (start_authorization_workflow_idle
              (log (Dialog_exec true) (count_dialog s)) Hw)
    as (s' & h & evs & Hrun & H).
  unfold bind. rewrite Hrun. exists s', h, evs.
  cbn [status _workflow queued_callbacks user _user_reply api_client_token
       backend currentDate deleted dialogs_shown next_handle events
       log count_dialog] in H.
  destruct H as (H1 & H2 & H3 & H4 & H5 & H6 & H7 & H8 & H9 & H10 & H11 & H12 & H13).
  split_all;
    first [ assumption | reflexivity | lia
          | rewrite H11, <- app_assoc; reflexivity ].
Qed.

(** ** Sign-out, release of the workflow, shutdown *)

Lemma retrieve_after_remove platform today b :
  retrieve_api_token platform today (remove_api_token platform b) = None.
Proof.
  destruct (records_after_remove platform b) as [Ht _].
  rewrite retrieve_api_token_unfold, Ht.
  destruct (truthy _); [| reflexivity].
  destruct (QDate.le _ _); reflexivity.
Qed.

Lemma deauthorize_effect platform s :
  status (deauthorize platform s) = NotAuthorized
  /\ api_client_token (deauthorize platform s) = None
  /\ backend (deauthorize platform s) = remove_api_token platform (backend s)
  /\ _workflow (deauthorize platform s) = _workflow s
  /\ queued_callbacks (deauthorize platform s) = queued_callbacks s
  /\ _user_reply (deauthorize platform s) = _user_reply s
  /\ currentDate (deauthorize platform s) = currentDate s
  /\ deleted (deauthorize platform s) = deleted s
  /\ next_handle (deauthorize platform s) = next_handle s
  /\ dialogs_shown (deauthorize platform s) = dialogs_shown s
  /\ events (deauthorize platform s)
     = events s ++ (if decide (status s = NotAuthorized) then []
                    else [Emit_status_changed NotAuthorized]).
Proof.
  unfold deauthorize.
  destruct (_set_status_effect NotAuthorized s)
    as (Ast & Awf & _ & _ & _ & Aq & Ar & _ & Ab & Ad & Adel & Anh & Ads & Aev & _).
  revert Ast Awf Aq Ar Ab Ad Adel Anh Ads Aev.
  generalize (_set_status NotAuthorized s). intros a. intros.
  cbn [status _workflow queued_callbacks _user_reply api_client_token backend
       currentDate deleted next_handle dialogs_shown events set_token set_backend].
  rewrite Ab. split_all; auto.
Qed.

Lemma _close_auth_server_effect force_close s :
  _workflow (_close_auth_server force_close s) = None
  /\ oauth_close_timer (_close_auth_server force_close s) = None
  /\ status (_close_auth_server force_close s) = status s
  /\ queued_callbacks (_close_auth_server force_close s) = queued_callbacks s
  /\ user (_close_auth_server force_close s) = user s
  /\ _user_reply (_close_auth_server force_close s) = _user_reply s
  /\ api_client_token (_close_auth_server force_close s) = api_client_token s
  /\ backend (_close_auth_server force_close s) = backend s
  /\ currentDate (_close_auth_server force_close s) = currentDate s
  /\ deleted (_close_auth_server force_close s) = deleted s
  /\ next_handle (_close_auth_server force_close s) = next_handle s
  /\ dialogs_shown (_close_auth_server force_close s) = dialogs_shown s
  /\ exists evs,
       events (_close_auth_server force_close s) = events s ++ evs
       /\ forallb quiet evs = true.
Proof.
  unfold _close_auth_server.
  destruct (alive s (oauth_close_timer s)) as [t|];
    match goal with |- context [alive ?x ?y] => destruct (alive x y) as [w|] end;
    destruct force_close; simpl;
    (split_all; try reflexivity;
     rewrite <- ?app_assoc;
     first [ exists []; rewrite app_nil_r; split; reflexivity
           | eexists; split; reflexivity ]).
Qed.

Lemma dialogs_after_show_authorization_dialog exec_ s :
  dialogs_shown (state_of (show_authorization_dialog exec_ s)) = S (dialogs_shown s).
Proof.
  destruct (exec_ (dialogs_shown s)) eqn:Hx.
  - destruct (_workflow s) as [w|] eqn:Hw.
    + rewrite (show_authorization_dialog_held exec_ s w Hx Hw). reflexivity.
    + destruct (show_authorization_dialog_idle exec_ s Hx Hw)
        as (s' & h & evs & -> & H).
      unfold state_of. cbn [snd]. tauto.
  - rewrite (show_authorization_dialog_cancelled exec_ s Hx). reflexivity.
Qed.

(** X9.  When the profile reply is a 401, the manager signs out (client
    token cleared, stored token removed, profile request forgotten) and
    shows the sign-in dialog once.  Cancelled: the status is
    [NotAuthorized] and the queue is emptied.  Accepted with no workflow
    held: the status is [Authorizing] and the queue is kept.  Accepted while
    the workflow of the login just made is still held (its close timer has
    not fired): the assertion error is raised, the status stays
    [NotAuthorized]. *)
Theorem reply_401_signs_out_and_prompts platform exec_ from_json s reply data :
  _user_reply s = Some reply ->
  isdeleted s reply = false ->
  http_status data = 401 ->
  let r := _set_user_details platform exec_ from_json reply data s in
  api_client_token (state_of r) = None
  /\ (forall day, retrieve_api_token platform day (backend (state_of r)) = None)
  /\ _user_reply (state_of r) = None
  /\ dialogs_shown (state_of r) = S (dialogs_shown s)
  /\ (exec_ (dialogs_shown s) = false ->
      outcome_of r = Returned tt
      /\ status (state_of r) = NotAuthorized
      /\ queued_callbacks (state_of r) = [])
  /\ (exec_ (dialogs_shown s) = true -> _workflow s = None ->
      outcome_of r = Returned tt
      /\ status (state_of r) = Authorizing
      /\ queued_callbacks (state_of r) = queued_callbacks s)
  /\ (exec_ (dialogs_shown s) = true -> _workflow s <> None ->
      outcome_of r = Raised AssertionError
      /\ status (state_of r) = NotAuthorized
      /\ queued_callbacks (state_of r) = queued_callbacks s).
Proof.
  intros Hr Hd Hs r.
  assert (Hrun : r = show_authorization_dialog exec_
                       (deauthorize platform (set_user_reply None s))).
  { subst r. unfold _set_user_details.
    rewrite Hr, bool_decide_eq_true_2 by reflexivity. cbn [negb].
    rewrite Hd, Hs. cbn [Z.eqb Pos.eqb]. unfold bind, run.
    apply attempt_authorize_without_token.
    destruct (deauthorize_effect platform (set_user_reply None s))
      as (_ & _ & -> & _).
    apply retrieve_after_remove. }
  rewrite Hrun. clear Hrun r.
  destruct (deauthorize_effect platform (set_user_reply None s))
    as (Dst & Dtok & Db & Dwf & Dq & Dr & Dd & Ddel & Dnh & Dds & Dev).
  revert Dst Dtok Db Dwf Dq Dr Dd Ddel Dnh Dds Dev.
  generalize (deauthorize platform (set_user_reply None s)).
  cbn [_workflow queued_callbacks _user_reply backend currentDate deleted
       next_handle dialogs_shown events set_user_reply].
  intros d Dst Dtok Db Dwf Dq Dr Dd Ddel Dnh Dds _.
  assert (Hdlg := dialogs_after_show_authorization_dialog exec_ d).
  rewrite Dds in *.
  destruct (exec_ (dialogs_shown s)) eqn:Hx.
  - destruct (_workflow s) as [w|] eqn:Hw.
    + rewrite (show_authorization_dialog_held exec_ d w) in *
        by (rewrite ?Dds; assumption).
      unfold state_of, outcome_of. cbn [fst snd].
      cbn [status queued_callbacks _user_reply api_client_token backend
           dialogs_shown log count_dialog].
      rewrite Db. split_all; auto using retrieve_after_remove; try discriminate.
    + destruct (show_authorization_dialog_idle exec_ d)
        as (s' & h & evs & Hrun & H1 & H2 & H3 & H4 & H5 & H6 & H7 & H8);
        [rewrite Dds; assumption | congruence |].
      rewrite Hrun in *. unfold state_of, outcome_of in *. cbn [fst snd] in *.
      rewrite H5, H6, H7, Db.
      split_all; auto using retrieve_after_remove; try discriminate;
        try congruence.
      intros _ _. split_all; congruence.
  - rewrite (show_authorization_dialog_cancelled exec_ d) in *
      by (rewrite ?Dds; assumption).
    unfold state_of, outcome_of. cbn [fst snd].
    cbn [status queued_callbacks _user_reply api_client_token backend
         dialogs_shown log count_dialog set_queued_callbacks].
    rewrite Db. split_all; auto using retrieve_after_remove; try discriminate.
Qed.

Lemma reply_401_signs_out_and_prompts_witness :
  let r := _set_user_details OtherPlatform (fun _ => false) object_json 3%nat
             (mkReplyData 401 true "") authorized_state in
  api_client_token (state_of r) = None
  /\ status (state_of r) = NotAuthorized
  /\ queued_callbacks (state_of r) = [].
Proof.
  pose proof (reply_401_signs_out_and_prompts OtherPlatform (fun _ => false)
                object_json authorized_state 3%nat (mkReplyData 401 true "")) as H.
  intros r.
  destruct H as (H1 & _ & _ & _ & H5 & _).
  - vm_compute. reflexivity.
  - vm_compute. reflexivity.
  - reflexivity.
  - destruct (H5 eq_refl) as (_ & H6 & H7). auto.
Defined.

(** X10.  After a workflow error the workflow handle stays held until the
    close timer fires.  "Try Again", accepted, raises the assertion error
    before that, and starts a new workflow (status [Authorizing]) once
    [_close_auth_server] has run. *)
Theorem retry_needs_closed_workflow exec_ error s w :
  _workflow s = Some w ->
  exec_ (dialogs_shown s) = true ->
  let failed := _authorization_error_occurred error s in
  let closed := _close_auth_server false failed in
  outcome_of (show_authorization_dialog exec_ failed) = Raised AssertionError
  /\ status (state_of (show_authorization_dialog exec_ failed)) = NotAuthorized
  /\ outcome_of (show_authorization_dialog exec_ closed) = Returned tt
  /\ status (state_of (show_authorization_dialog exec_ closed)) = Authorizing
  /\ _workflow (state_of (show_authorization_dialog exec_ closed)) <> None.
Proof.
  intros Hw Hx failed closed.
  destruct (_authorization_error_occurred_effect error s)
    as (Fst & _ & Fwf & Fds & _).
  fold failed in Fst, Fwf, Fds.
  destruct (_close_auth_server_effect false failed)
    as (Cwf & _ & Cst & _ & _ & _ & _ & _ & _ & _ & _ & Cds & _).
  fold closed in Cwf, Cst, Cds.
  clearbody closed. clearbody failed.
  rewrite (show_authorization_dialog_held exec_ failed w)
    by (rewrite ?Fds, ?Fwf; assumption).
  destruct (show_authorization_dialog_idle exec_ closed)
    as (s' & h & evs & -> & H1 & H2 & _);
    [rewrite Cds, Fds; assumption | assumption |].
  unfold outcome_of, state_of. cbn [fst snd status log count_dialog].
  split_all; auto. rewrite H2. discriminate.
Qed.

Lemma retry_needs_closed_workflow_witness :
  outcome_of (show_authorization_dialog (fun _ => true)
                (_authorization_error_occurred "access_denied" authorizing_state))
  = Raised AssertionError.
Proof.
  refine (proj1 (retry_needs_closed_workflow (fun _ => true) "access_denied"
                   authorizing_state 0%nat _ _)).
  - vm_compute. reflexivity.
  - reflexivity.
Defined.

(** The release actions the manager takes on the objects it holds: each is
    taken only on an object that is still alive. *)
Definition reply_release (x : option Handle) : list Event :=
  match x with Some r => [Reply_deleteLater r] | None => [] end.

Definition timer_release (x : option Handle) : list Event :=
  match x with Some t => [Timer_dispose t] | None => [] end.

Definition workflow_release (force_close : bool) (x : option Handle) : list Event :=
  match x with
  | Some w => (if force_close then [Workflow_force_stop w] else []) ++ [Workflow_close w]
  | None => []
  end.

Lemma alive_same_deleted s s' x :
  deleted s' = deleted s -> alive s' x = alive s x.
Proof. intros H. unfold alive, isdeleted. rewrite H. reflexivity. Qed.

Lemma _close_auth_server_released force_close s :
  oauth_close_timer s = None -> _workflow s = None ->
  _close_auth_server force_close s = s.
Proof.
  destruct s. cbn [oauth_close_timer _workflow]. intros -> ->. reflexivity.
Qed.

Lemma cleanup_released s :
  _user_reply s = None -> oauth_close_timer s = None -> _workflow s = None ->
  cleanup s = s.
Proof.
  destruct s. cbn [_user_reply oauth_close_timer _workflow].
  intros -> -> ->. reflexivity.
Qed.

Lemma _close_auth_server_releases force_close s :
  events (_close_auth_server force_close s)
  = events s ++ timer_release (alive s (oauth_close_timer s))
             ++ workflow_release force_close (alive s (_workflow s))
  /\ _workflow (_close_auth_server force_close s) = None
  /\ oauth_close_timer (_close_auth_server force_close s) = None.
Proof.
  unfold _close_auth_server.
  destruct (alive s (oauth_close_timer s)) as [t|] eqn:Et.
  - rewrite (alive_same_deleted s _ (_workflow _)) by reflexivity.
    cbn [_workflow set_oauth_close_timer log].
    destruct (alive s (_workflow s)) as [w|] eqn:Ew; destruct force_close;
      cbn [events _workflow oauth_close_timer set_workflow set_oauth_close_timer
           log timer_release workflow_release app];
      rewrite <- ?app_assoc, ?app_nil_r; split_all; reflexivity.
  - rewrite (alive_same_deleted s _ (_workflow _)) by reflexivity.
    cbn [_workflow set_oauth_close_timer log].
    destruct (alive s (_workflow s)) as [w|] eqn:Ew; destruct force_close;
      cbn [events _workflow oauth_close_timer set_workflow set_oauth_close_timer
           log timer_release workflow_release app];
      rewrite <- ?app_assoc, ?app_nil_r; split_all; reflexivity.
Qed.

(** X11.  [cleanup] schedules the deletion of the profile reply, disposes of
    the close timer, and force-stops and closes the workflow, each only if
    the object is still alive, in this order and nothing else; it forgets
    all three and leaves the status and the queue alone.  A second
    [cleanup] changes nothing, and neither does a [cleanup] of a manager
    that never started an authorization. *)
Theorem cleanup_releases_and_repeats s :
  events (cleanup s)
  = events s ++ reply_release (alive s (_user_reply s))
             ++ timer_release (alive s (oauth_close_timer s))
             ++ workflow_release true (alive s (_workflow s))
  /\ _user_reply (cleanup s) = None
  /\ oauth_close_timer (cleanup s) = None
  /\ _workflow (cleanup s) = None
  /\ status (cleanup s) = status s
  /\ queued_callbacks (cleanup s) = queued_callbacks s
  /\ cleanup (cleanup s) = cleanup s
  /\ (forall b today, cleanup (init b today) = init b today).
Proof.
  assert (Hmain :
    events (cleanup s)
    = events s ++ reply_release (alive s (_user_reply s))
               ++ timer_release (alive s (oauth_close_timer s))
               ++ workflow_release true (alive s (_workflow s))
    /\ _user_reply (cleanup s) = None
    /\ oauth_close_timer (cleanup s) = None
    /\ _workflow (cleanup s) = None
    /\ status (cleanup s) = status s
    /\ queued_callbacks (cleanup s) = queued_callbacks s).
  { unfold cleanup.
    match goal with |- context [_close_auth_server true ?x] =>
      destruct (_close_auth_server_releases true x) as (Cev & Cwf & Ct);
      destruct (_close_auth_server_effect true x)
        as (_ & _ & Cst & Cq & _ & Cr & _);
      assert (Hx : events x = events s ++ reply_release (alive s (_user_reply s))
                   /\ _user_reply x = None
                   /\ status x = status s
                   /\ queued_callbacks x = queued_callbacks s
                   /\ deleted x = deleted s
                   /\ oauth_close_timer x = oauth_close_timer s
                   /\ _workflow x = _workflow s)
        by (destruct (alive s (_user_reply s));
            cbn [events _user_reply status queued_callbacks deleted
                 oauth_close_timer _workflow set_user_reply log reply_release];
            rewrite ?app_nil_r; split_all; reflexivity);
      destruct Hx as (Xev & Xr & Xst & Xq & Xdel & Xt & Xw);
      rewrite (alive_same_deleted s x) in Cev by exact Xdel;
      rewrite (alive_same_deleted s x) in Cev by exact Xdel;
      rewrite Xt, Xw, Xev in Cev;
      rewrite Cev, Cwf, Ct, Cst, Cq, Cr, Xr, Xst, Xq
    end.
    rewrite <- !app_assoc. split_all; reflexivity. }
  destruct Hmain as (H1 & H2 & H3 & H4 & H5 & H6).
  split_all; try assumption.
  - apply cleanup_released; assumption.
  - intros b today. reflexivity.
Qed.

(** X12.  In the [Authorized] state [authorization_callback] runs the
    callback before it returns, answers true (or lets the callback's own
    exception through), and does nothing else: the queue, the status and
    the number of dialogs shown are as before. *)
Theorem authorized_request_runs_at_once platform exec_ s cb :
  status s = Authorized ->
  let r := authorization_callback platform exec_ cb s in
  outcome_of r = (if raises cb then Raised CallbackError else Returned true)
  /\ events (state_of r) = events s ++ runs cb
  /\ queued_callbacks (state_of r) = queued_callbacks s
  /\ status (state_of r) = Authorized
  /\ dialogs_shown (state_of r) = dialogs_shown s.
Proof.
  intros Hst r. subst r.
  unfold authorization_callback, authorization_callback_with.
  destruct (decide (status s = Authorized)) as [E|E]; [| congruence].
  unfold bind. rewrite call_authorized by exact Hst.
  destruct (log_all_fields (runs cb) s) as (H1 & H2 & _ & H4 & _ & _ & _ & _ & H9).
  destruct (raises cb); unfold ret, outcome_of, state_of; cbn [fst snd];
    rewrite H1, H2, H4, H9; auto.
Qed.

Lemma authorized_request_runs_at_once_witness :
  outcome_of (authorization_callback OtherPlatform (fun _ => true) (Plain 7)
                authorized_state)
  = Returned true.
Proof.
  refine (proj1 (authorized_request_runs_at_once OtherPlatform (fun _ => true)
                   authorized_state (Plain 7) _)).
  vm_compute. reflexivity.
Defined.

(** X13.  "Log Out" followed by "Sign In": the first trigger of the login
    action in the [Authorized] state signs out without a dialog and leaves
    no credential that [retrieve_api_token] would return on any date; the
    second trigger therefore shows the sign-in dialog. *)
Theorem log_out_then_sign_in_prompts platform exec_ s :
  status s = Authorized ->
  let r1 := _login_action_triggered platform exec_ s in
  let r2 := _login_action_triggered platform exec_ (state_of r1) in
  outcome_of r1 = Returned tt
  /\ is_authorized (state_of r1) = false
  /\ api_client_token (state_of r1) = None
  /\ (forall day, retrieve_api_token platform day (backend (state_of r1)) = None)
  /\ dialogs_shown (state_of r1) = dialogs_shown s
  /\ dialogs_shown (state_of r2) = S (dialogs_shown s).
Proof.
  intros Hst r1 r2.
  assert (E1 : r1 = (Returned tt, deauthorize platform s)).
  { subst r1. unfold _login_action_triggered. rewrite Hst. reflexivity. }
  subst r2. rewrite E1. clear E1 r1.
  unfold outcome_of, state_of. cbn [fst snd].
  destruct (deauthorize_effect platform s)
    as (Dst & Dtok & Db & _ & _ & _ & _ & _ & _ & Dds & _).
  revert Dst Dtok Db Dds. generalize (deauthorize platform s).
  intros d Dst Dtok Db Dds.
  split_all; auto.
  - unfold is_authorized. apply bool_decide_eq_false_2. congruence.
  - intros day. rewrite Db. apply retrieve_after_remove.
  - unfold _login_action_triggered. rewrite Dst.
    rewrite attempt_authorize_without_token
      by (rewrite Db; apply retrieve_after_remove).
    rewrite <- Dds. apply dialogs_after_show_authorization_dialog.
Qed.

Lemma log_out_then_sign_in_prompts_witness :
  dialogs_shown
    (state_of
       (_login_action_triggered OtherPlatform (fun _ => true)
          (state_of (_login_action_triggered OtherPlatform (fun _ => true)
                       authorized_state))))
  = S (dialogs_shown authorized_state).
Proof.
  apply (log_out_then_sign_in_prompts OtherPlatform (fun _ => true) authorized_state).
  vm_compute. reflexivity.
Defined.

(** X14.  A request made when the manager is not authorized, holds no
    workflow and finds no valid stored credential, with the dialog accepted:
    the call answers false, the workflow is started (status [Authorizing]),
    and the callback waits at the end of the queue; nothing is run. *)
Theorem first_request_starts_workflow platform exec_ s cb :
  status s <> Authorized ->
  _workflow s = None ->
  retrieve_api_token platform (currentDate s) (backend s) = None ->
  exec_ (dialogs_shown s) = true ->
  let r := authorization_callback platform exec_ cb s in
  outcome_of r = Returned false
  /\ status (state_of r) = Authorizing
  /\ queued_callbacks (state_of r) = queued_callbacks s ++ [cb]
  /\ exists h evs,
       _workflow (state_of r) = Some h
       /\ events (state_of r) = events s ++ Dialog_exec true :: evs
       /\ forallb (fun e => negb (is_callback_run e)) evs = true
       /\ forallb (fun e => negb (is_dialog e)) evs = true
       /\ last evs = Some (Workflow_start h).
Proof.
  intros Hst Hw Hret Hx r. subst r.
  unfold authorization_callback, authorization_callback_with.
  destruct (decide (status s = Authorized)) as [E|E]; [congruence |].
  unfold bind, run, ret. cbv beta iota.
  set (q := set_queued_callbacks (queued_callbacks s ++ [cb]) s).
  assert (Hq : attempt_authorize platform exec_ q = show_authorization_dialog exec_ q)
    by (apply attempt_authorize_without_token; exact Hret).
  destruct (show_authorization_dialog_idle exec_ q Hx Hw)
    as (s' & h & evs & Hrun & H1 & H2 & _ & H4 & _ & _ & _ & _ & _ & _ & H11 & H12 & H13).
  rewrite Hq, Hrun.
  unfold outcome_of, state_of. cbn [fst snd].
  apply quiet_no_callback in H12 as [Hc Hd].
  split; [reflexivity |]. split; [exact H1 |]. split; [rewrite H4; reflexivity |].
  exists h, evs. split_all; assumption.
Qed.

Lemma first_request_starts_workflow_witness :
  let r := authorization_callback OtherPlatform (fun _ => true) (Plain 1) fresh_host in
  outcome_of r = Returned false
  /\ status (state_of r) = Authorizing
  /\ queued_callbacks (state_of r) = queued_callbacks fresh_host ++ [Plain 1].
Proof.
  pose proof (first_request_starts_workflow OtherPlatform (fun _ => true)
                fresh_host (Plain 1)) as H.
  intros r. destruct H as (H1 & H2 & H3 & _).
  - discriminate.
  - reflexivity.
  - vm_compute. reflexivity.
  - reflexivity.
  - auto.
Defined.

Lemma retrieve_same_day_after_store platform today token expiry b :
  token <> "" ->
  86400 <= expiry ->
  QDate.isValid (QDate.addDays today (expiry_days expiry)) = true ->
  QDate.fromString (QDate.toString (QDate.addDays today (expiry_days expiry)))
    = QDate.addDays today (expiry_days expiry) ->
  retrieve_api_token platform today
    (snd (store_api_token platform today token expiry b)) = Some token.
Proof.
  intros Htok Hday Hvalid Hrt.
  pose proof (records_after_store platform today token expiry b) as [Ht He].
  cbv zeta in Ht, He.
  rewrite retrieve_api_token_unfold, He, Ht.
  rewrite truthy_nonempty by (apply toString_nonempty; assumption).
  cbn [default id]. rewrite Hrt.
  rewrite (addDays_valid _ _ Hvalid). unfold QDate.le.
  pose proof (expiry_days_whole_day expiry Hday).
  destruct (Z.leb_spec (today + expiry_days expiry) today); [lia |].
  apply or_None_nonempty. exact Htok.
Qed.

Lemma attempt_authorize_with_token_at platform exec_ s today b tok :
  currentDate s = today ->
  backend s = b ->
  retrieve_api_token platform today b = Some tok ->
  attempt_authorize platform exec_ s
  = (Returned tt,
     fetch_user (log Emit_authorized
       (set_token (Some tok) (_set_status Authorized (_cleanup_messages s))))).
Proof. intros <- <-. apply attempt_authorize_with_token. Qed.

Lemma _cleanup_messages_nothing s :
  _authorizing_message s = None ->
  _authorization_failed_message s = None ->
  _cleanup_messages s = s.
Proof.
  intros H1 H2. unfold _cleanup_messages. rewrite H1. cbn [alive].
  rewrite H2. reflexivity.
Qed.

(** X15.  The credential persisted by a successful login (non-empty token,
    expiry of a day or more) is found by the manager of the next session:
    started on the same day over the same backend, its first
    [attempt_authorize] becomes [Authorized] with that token and shows no
    dialog. *)
Theorem next_session_reuses_credential platform exec_ token expiry s :
  token <> "" ->
  86400 <= expiry ->
  QDate.isValid (QDate.addDays (currentDate s) (expiry_days expiry)) = true ->
  QDate.fromString
    (QDate.toString (QDate.addDays (currentDate s) (expiry_days expiry)))
  = QDate.addDays (currentDate s) (expiry_days expiry) ->
  let b' := backend (_authorization_success platform token expiry s) in
  let r := attempt_authorize platform exec_ (init b' (currentDate s)) in
  outcome_of r = Returned tt
  /\ is_authorized (state_of r) = true
  /\ api_client_token (state_of r) = Some token
  /\ dialogs_shown (state_of r) = 0%nat
  /\ events (state_of r)
     = [Emit_status_changed Authorized; Emit_authorized; Api_user 0%nat].
Proof.
  intros Htok Hday Hvalid Hrt b' r.
  assert (Hret : retrieve_api_token platform (currentDate s) b' = Some token).
  { subst b'.
    destruct (_authorization_success_effect platform token expiry s)
      as (_ & _ & -> & _).
    apply retrieve_same_day_after_store; assumption. }
  subst r. clearbody b'.
  rewrite (attempt_authorize_with_token_at platform exec_
             (init b' (currentDate s)) (currentDate s) b' token
             eq_refl eq_refl Hret).
  rewrite _cleanup_messages_nothing by reflexivity.
  destruct (_set_status_effect Authorized (init b' (currentDate s)))
    as (Ast & _ & _ & _ & _ & _ & _ & _ & _ & _ & _ & Anh & Ads & Aev & _).
  revert Ast Anh Ads Aev.
  generalize (_set_status Authorized (init b' (currentDate s))).
  intros a Ast Anh Ads Aev.
  destruct (decide (status (init b' (currentDate s)) = Authorized)) as [E|E];
    [discriminate E |].
  unfold is_authorized. rewrite bool_decide_eq_true.
  unfold outcome_of, state_of, fetch_user, fresh.
  cbn [fst snd status api_client_token dialogs_shown events next_handle
       set_token set_user_reply log].
  rewrite Aev, Anh, Ads, Ast. split_all; reflexivity.
Qed.

Lemma next_session_reuses_credential_witness :
  let b' := backend (_authorization_success OtherPlatform "tok" 864000
                       authorizing_state) in
  let r := attempt_authorize OtherPlatform (fun _ => false)
             (init b' (currentDate authorizing_state)) in
  outcome_of r = Returned tt
  /\ is_authorized (state_of r) = true
  /\ api_client_token (state_of r) = Some "tok"
  /\ dialogs_shown (state_of r) = 0%nat
  /\ events (state_of r)
     = [Emit_status_changed Authorized; Emit_authorized; Api_user 0%nat].
Proof.
  refine (next_session_reuses_credential OtherPlatform (fun _ => false)
            "tok" 864000 authorizing_state _ _ _ _).
  - discriminate.
  - lia.
  - vm_compute. reflexivity.
  - vm_compute. reflexivity.
Defined.

(** ** A deferred request, from the call to the callback *)

Lemma request_starts_workflow_effect platform exec_ s cb :
  status s <> Authorized ->
  _workflow s = None ->
  retrieve_api_token platform (currentDate s) (backend s) = None ->
  exec_ (dialogs_shown s) = true ->
  exists s' evs,
    authorization_callback platform exec_ cb s = (Returned false, s')
    /\ status s' = Authorizing
    /\ queued_callbacks s' = queued_callbacks s ++ [cb]
    /\ deleted s' = deleted s
    /\ dialogs_shown s' = S (dialogs_shown s)
    /\ events s' = events s ++ Dialog_exec true :: evs
    /\ forallb quiet evs = true.
Proof.
  intros Hst Hw Hret Hx.
  unfold authorization_callback, authorization_callback_with.
  destruct (decide (status s = Authorized)) as [E|E]; [congruence |].
  unfold bind, run, ret. cbv beta iota.
  set (q := set_queued_callbacks (queued_callbacks s ++ [cb]) s).
  assert (Hq : attempt_authorize platform exec_ q = show_authorization_dialog exec_ q)
    by (apply attempt_authorize_without_token; exact Hret).
  destruct (show_authorization_dialog_idle exec_ q Hx Hw)
    as (s' & h & evs & Hrun & H1 & _ & _ & H4 & _ & _ & _ & _ & H9 & H10 & H11 & H12 & _).
  rewrite Hq, Hrun. exists s', evs. split_all; auto.
Qed.

Lemma quiet_filter evs :
  forallb quiet evs = true -> List.filter is_callback_run evs = [].
Proof.
  induction evs as [|e evs IH]; [reflexivity |].
  cbn [forallb List.filter]. intros H. apply andb_true_iff in H as [He H].
  unfold quiet in He. rewrite negb_orb in He. apply andb_true_iff in He as [_ He].
  apply negb_true_iff in He. rewrite He. apply IH. exact H.
Qed.

(** X16.  One deferred request, from the call to the callback: on a host
    with no valid stored credential the request answers false and the
    accepted dialog starts the workflow; the workflow succeeds; the profile
    reply arrives as a plain success whose body holds a profile.  Then the callback has run exactly
    once, as the last thing that happened, the manager is authorized with
    the profile set, the queue is empty and one dialog was shown. *)
Theorem deferred_request_runs_once
    platform exec_ from_json b today id token expiry data profile :
  retrieve_api_token platform today b = None ->
  exec_ 0%nat = true ->
  http_status data <> 401 ->
  has_error data = false ->
  from_json (body data) = Some profile ->
  let r1 := authorization_callback platform exec_ (Plain id) (init b today) in
  let s2 := _authorization_success platform token expiry (state_of r1) in
  outcome_of r1 = Returned false
  /\ exists reply,
       _user_reply s2 = Some reply
       /\ let r3 := _set_user_details platform exec_ from_json reply data s2 in
          outcome_of r3 = Returned tt
          /\ is_authorized (state_of r3) = true
          /\ user (state_of r3) = Some profile
          /\ queued_callbacks (state_of r3) = []
          /\ List.filter is_callback_run (events (state_of r3)) = [Callback_run id]
          /\ last (events (state_of r3)) = Some (Callback_run id)
          /\ dialogs_shown (state_of r3) = 1%nat.
Proof.
  intros Hret Hx Hs He Hp r1 s2.
  destruct (request_starts_workflow_effect platform exec_ (init b today) (Plain id))
    as (s1 & evs1 & Hrun & St1 & Q1 & Del1 & Ds1 & Ev1 & Quiet1);
    [discriminate | reflexivity | exact Hret | exact Hx |].
  subst s2 r1. rewrite Hrun. unfold outcome_of, state_of.
  cbn [fst snd]. cbn [init queued_callbacks deleted dialogs_shown events app] in *.
  clear Hrun.
  destruct (_authorization_success_effect platform token expiry s1)
    as (St2 & _ & _ & Q2 & _ & _ & Ds2 & Del2 & reply & evs2 & R2 & _ & _ & Ev2
        & Quiet2 & _).
  revert St2 Q2 Ds2 Del2 R2 Ev2.
  generalize (_authorization_success platform token expiry s1).
  intros s2 St2 Q2 Ds2 Del2 R2 Ev2.
  split; [reflexivity |]. exists reply. split; [exact R2 |].
  assert (Hd : isdeleted s2 reply = false).
  { unfold isdeleted. rewrite Del2, Del1. apply bool_decide_eq_false_2.
    apply not_elem_of_nil. }
  cbv zeta.
  rewrite (_set_user_details_ok platform exec_ from_json reply data profile s2
             R2 Hd Hs He Hp).
  rewrite Q2, Q1.
  change [Plain id] with (map Plain [id]). rewrite for_each_call_plain.
  cbn [fst snd map].
  match goal with |- context [log_all ?l ?x] =>
    destruct (log_all_fields l x) as (L1 & L2 & _ & L4 & L5 & _ & _ & _ & L9)
  end.
  cbn [status queued_callbacks user events dialogs_shown set_queued_callbacks
       set_user map] in L1, L2, L4, L5, L9.
  unfold is_authorized. rewrite L1, L2, L4, L5, L9, St2, Ds2, Ds1, Ev2, Ev1.
  split_all; try reflexivity.
  - rewrite !List.filter_app. cbn [List.filter is_callback_run is_dialog].
    rewrite !quiet_filter by assumption. reflexivity.
  - apply last_snoc.
Qed.

Lemma deferred_request_runs_once_witness :
  outcome_of (authorization_callback OtherPlatform (fun _ => true) (Plain 1)
                (init empty_backend d20261104))
  = Returned false.
Proof.
  refine (proj1 (deferred_request_runs_once OtherPlatform (fun _ => true)
                   object_json empty_backend d20261104 1%nat "tok" 864000
                   (mkReplyData 200 false "{}") (mkUser "{}") _ _ _ _ _)).
  - vm_compute. reflexivity.
  - reflexivity.
  - discriminate.
  - reflexivity.
  - reflexivity.
Defined.

Lemma remove_api_token_twice platform b :
  remove_api_token platform (remove_api_token platform b)
  = remove_api_token platform b.
Proof.
  destruct platform; unfold remove_api_token;
    cbn [qgs_settings auth_settings]; rewrite delete_delete_eq; reflexivity.
Qed.

(** X17.  [deauthorize] is idempotent: a second sign-out changes nothing,
    and in particular emits no second [status_changed]. *)
Theorem deauthorize_twice platform s :
  deauthorize platform (deauthorize platform s) = deauthorize platform s.
Proof.
  destruct s as [st wf tm am fm q u r la tok b ev d del nh ds].
  unfold deauthorize, _set_status. cbn [status].
  destruct (decide (st = NotAuthorized)) as [E|E].
  - subst st. cbn [status set_token set_backend].
    destruct (decide (NotAuthorized = NotAuthorized)) as [E|E]; [| congruence].
    cbn -[remove_api_token]. rewrite remove_api_token_twice. reflexivity.
  - cbn [status set_token set_backend set_status set_user set_login_action log].
    destruct (decide (NotAuthorized = NotAuthorized)) as [E'|E']; [| congruence].
    cbn -[remove_api_token]. rewrite remove_api_token_twice. reflexivity.
Qed.

(** X18.  [_close_auth_server] disposes of the close timer and closes the
    workflow (after a force-stop when forced), each only if the object is
    still alive, in this order and nothing else, and forgets both.  A
    second call does nothing: the timer may fire after [cleanup], and
    [cleanup] may run after the timer has fired, without any effect. *)
Theorem close_auth_server_twice force_close again s :
  events (_close_auth_server force_close s)
  = events s ++ timer_release (alive s (oauth_close_timer s))
             ++ workflow_release force_close (alive s (_workflow s))
  /\ _workflow (_close_auth_server force_close s) = None
  /\ oauth_close_timer (_close_auth_server force_close s) = None
  /\ _close_auth_server again (_close_auth_server force_close s)
     = _close_auth_server force_close s.
Proof.
  destruct (_close_auth_server_releases force_close s) as (Hev & Hw & Ht).
  split_all; try assumption.
  apply _close_auth_server_released; assumption.
Qed.

(** X19.  Without a valid stored credential [attempt_authorize] shows the
    sign-in dialog exactly once and does not authorize: afterwards the
    status is [Authorizing] (dialog accepted, no workflow held) or what it
    was before. *)
Theorem attempt_authorize_without_credential_prompts platform exec_ s :
  retrieve_api_token platform (currentDate s) (backend s) = None ->
  let r := attempt_authorize platform exec_ s in
  dialogs_shown (state_of r) = S (dialogs_shown s)
  /\ (status (state_of r) = Authorizing \/ status (state_of r) = status s)
  /\ api_client_token (state_of r) = api_client_token s
  /\ backend (state_of r) = backend s.
Proof.
  intros Hret r. subst r.
  rewrite attempt_authorize_without_token by exact Hret.
  split; [apply dialogs_after_show_authorization_dialog |].
  destruct (exec_ (dialogs_shown s)) eqn:Hx.
  - destruct (_workflow s) as [w|] eqn:Hw.
    + rewrite (show_authorization_dialog_held exec_ s w Hx Hw).
      unfold state_of. cbn. auto.
    + destruct (show_authorization_dialog_idle exec_ s Hx Hw)
        as (s' & h & evs & -> & H1 & _ & _ & _ & _ & H6 & H7 & _).
      unfold state_of. cbn [snd]. auto.
  - rewrite (show_authorization_dialog_cancelled exec_ s Hx).
    unfold state_of. cbn. auto.
Qed.

Lemma attempt_authorize_without_credential_prompts_witness :
  dialogs_shown (state_of (attempt_authorize OtherPlatform (fun _ => false) fresh_host))
  = S (dialogs_shown fresh_host).
Proof.
  apply (attempt_authorize_without_credential_prompts OtherPlatform
           (fun _ => false) fresh_host).
  vm_compute. reflexivity.
Defined.

(** X20.  A request made when the manager is not yet authorized but a valid
    stored credential exists: the manager becomes [Authorized] within the
    call and shows no dialog, yet the call answers false and the callback is
    not run; it waits in the queue for the profile reply. *)
Theorem request_with_stored_credential_is_deferred platform exec_ s cb tok :
  status s <> Authorized ->
  retrieve_api_token platform (currentDate s) (backend s) = Some tok ->
  let r := authorization_callback platform exec_ cb s in
  outcome_of r = Returned false
  /\ is_authorized (state_of r) = true
  /\ api_client_token (state_of r) = Some tok
  /\ queued_callbacks (state_of r) = queued_callbacks s ++ [cb]
  /\ _user_reply (state_of r) = Some (next_handle s)
  /\ dialogs_shown (state_of r) = dialogs_shown s
  /\ exists evs,
       events (state_of r) = events s ++ evs
       /\ forallb (fun e => negb (is_callback_run e)) evs = true.
Proof.
  intros Hst Hret r. subst r.
  unfold authorization_callback, authorization_callback_with.
  destruct (decide (status s = Authorized)) as [E|E]; [congruence |].
  unfold bind, run, ret. cbv beta iota.
  set (q := set_queued_callbacks (queued_callbacks s ++ [cb]) s).
  rewrite (attempt_authorize_with_token_at platform exec_ q (currentDate s)
             (backend s) tok eq_refl eq_refl Hret).
  destruct (_cleanup_messages_effect q)
    as (pops & Hev & Hpops & Cst & _ & _ & Cq & _ & _ & _ & _ & _ & _ & _ & Cnh & Cds).
  fold quiet in Hpops. apply quiet_no_callback in Hpops as [Hpops _].
  revert Hev Cst Cq Cnh Cds. generalize (_cleanup_messages q). subst q.
  cbn [status queued_callbacks events next_handle dialogs_shown
       set_queued_callbacks].
  intros c Hev Cst Cq Cnh Cds.
  destruct (_set_status_effect Authorized c)
    as (Ast & _ & _ & _ & _ & Aq & _ & _ & _ & _ & _ & Anh & Ads & Aev & _).
  revert Ast Aq Anh Ads Aev. generalize (_set_status Authorized c).
  intros a Ast Aq Anh Ads Aev.
  unfold is_authorized, outcome_of, state_of, fetch_user, fresh.
  cbn [fst snd status queued_callbacks api_client_token _user_reply
       dialogs_shown events next_handle set_token set_user_reply log].
  rewrite Ast, Aq, Cq, Anh, Cnh, Ads, Cds, Aev, Hev.
  split_all; try reflexivity.
  eexists. rewrite <- !app_assoc. split; [reflexivity |].
  rewrite !forallb_app, Hpops. destruct (decide _); reflexivity.
Qed.

Lemma request_with_stored_credential_is_deferred_witness :
  outcome_of (authorization_callback OtherPlatform (fun _ => true) (Plain 1)
                (init stored_backend d20261104))
  = Returned false.
Proof.
  refine (proj1 (request_with_stored_credential_is_deferred OtherPlatform
                   (fun _ => true) (init stored_backend d20261104) (Plain 1)
                   "abc" _ _)).
  - discriminate.
  - vm_compute. reflexivity.
Defined.

Definition message_pop (x : option Handle) : list Event :=
  match x with Some m => [MessageBar_popWidget m] | None => [] end.

Definition forget_if_alive (live x : option Handle) : option Handle :=
  match live with Some _ => None | None => x end.

(** X21.  [_cleanup_messages] pops the message bar items that are still
    alive, the authorizing item first, and forgets them; an item the host
    has already disposed of is neither popped nor forgotten; nothing else
    happens.  Afterwards no live item is referenced, and a second call does
    nothing. *)
Theorem cleanup_messages_leaves_no_live_item s :
  events (_cleanup_messages s)
  = events s ++ message_pop (alive s (_authorizing_message s))
             ++ message_pop (alive s (_authorization_failed_message s))
  /\ _authorizing_message (_cleanup_messages s)
     = forget_if_alive (alive s (_authorizing_message s)) (_authorizing_message s)
  /\ _authorization_failed_message (_cleanup_messages s)
     = forget_if_alive (alive s (_authorization_failed_message s))
         (_authorization_failed_message s)
  /\ alive (_cleanup_messages s) (_authorizing_message (_cleanup_messages s)) = None
  /\ alive (_cleanup_messages s) (_authorization_failed_message (_cleanup_messages s))
     = None
  /\ _cleanup_messages (_cleanup_messages s) = _cleanup_messages s.
Proof.
  assert (Hmain :
    events (_cleanup_messages s)
    = events s ++ message_pop (alive s (_authorizing_message s))
               ++ message_pop (alive s (_authorization_failed_message s))
    /\ _authorizing_message (_cleanup_messages s)
       = forget_if_alive (alive s (_authorizing_message s)) (_authorizing_message s)
    /\ _authorization_failed_message (_cleanup_messages s)
       = forget_if_alive (alive s (_authorization_failed_message s))
           (_authorization_failed_message s)
    /\ deleted (_cleanup_messages s) = deleted s).
  { unfold _cleanup_messages.
    destruct (alive s (_authorizing_message s)) as [m|] eqn:Em.
    - rewrite (alive_same_deleted s _ (_authorization_failed_message _))
        by reflexivity.
      cbn [_authorization_failed_message set_authorizing_message log].
      destruct (alive s (_authorization_failed_message s)) as [m'|] eqn:Em';
        cbn [events _authorizing_message _authorization_failed_message deleted
             set_authorizing_message set_authorization_failed_message log
             message_pop forget_if_alive app];
        rewrite <- ?app_assoc, ?app_nil_r; split_all; reflexivity.
    - destruct (alive s (_authorization_failed_message s)) as [m'|] eqn:Em';
        cbn [events _authorizing_message _authorization_failed_message deleted
             set_authorizing_message set_authorization_failed_message log
             message_pop forget_if_alive app];
        rewrite <- ?app_assoc, ?app_nil_r; split_all; reflexivity. }
  destruct Hmain as (Hev & Ha & Hf & Hdel).
  assert (Hla : alive (_cleanup_messages s)
                  (_authorizing_message (_cleanup_messages s)) = None).
  { rewrite (alive_same_deleted s) by exact Hdel. rewrite Ha.
    destruct (alive s (_authorizing_message s)) eqn:E; [reflexivity | exact E]. }
  assert (Hlf : alive (_cleanup_messages s)
                  (_authorization_failed_message (_cleanup_messages s)) = None).
  { rewrite (alive_same_deleted s) by exact Hdel. rewrite Hf.
    destruct (alive s (_authorization_failed_message s)) eqn:E;
      [reflexivity | exact E]. }
  split_all; try assumption.
  revert Hla Hlf. generalize (_cleanup_messages s). intros x Hla Hlf.
  unfold _cleanup_messages. rewrite Hla, Hlf. reflexivity.
Qed.

(** ** The pass over the queue *)





(** The queue is emptied before the pass: drained in the [NotAuthorized]
    state, a callback that asks for authorization again finds the queue
    empty, and its continuation is the one entry left afterwards. *)
Example continuation_queued_during_pass :
  let s := set_queued_callbacks [Requesting 1 (Plain 2)]
             (_close_auth_server false (deauthorize OtherPlatform authorized_state)) in
  let r := _set_user_details OtherPlatform (fun _ => true) object_json 3%nat
             (mkReplyData 200 false "{}") s in
  outcome_of r = Returned tt
  /\ queued_callbacks (state_of r) = [Plain 2]
  /\ List.filter is_callback_run (events (state_of r)) = [Callback_run 1%nat].
Proof. vm_compute. split_all; reflexivity. Qed.
